(** * plot_results.py: the Celero recordTable reader

    A shallow embedding of [scripts/plot_results.py] (Python 2): the
    line-oriented reader [read_celero_recordTable], its header parser
    [parse_celero_recordTable_header] and the group listing
    [list_recordTable_groups], followed by the properties of the reader
    that the specification states.

    Python [str] values are byte strings and are modelled by [string];
    Python lists by [list]; the array [np.array] builds from the header's
    sizes by [sizes], which keeps the element type numpy chooses; the
    [dict] built for ['extra_data'] by a
    [gmap string string]; the [set] built by [list_recordTable_groups] by a
    [gset string].  An exception raised by the script is a value of
    [py_error] on the left of a sum. *)

From Stdlib Require Import ZArith List Ascii String.
From Corelib Require Import SpecFloat.
From stdpp Require Import base list gmap strings sorting.

Local Open Scope string_scope.
Local Open Scope Z_scope.
Local Open Scope nat_scope.

(** ** Python string built-ins used by the script *)

Module Py.

(** [c in '0123456789']: the test behind [str.isdigit] in the C locale. *)
Definition is_digit (c : ascii) : bool :=
  let n := nat_of_ascii c in (48 <=? n) && (n <=? 57).

Fixpoint all_digits (s : string) : bool :=
  match s with
  | EmptyString => true
  | String c s' => is_digit c && all_digits s'
  end.

(** [s.isdigit()]: at least one character, and every character a digit. *)
Definition isdigit (s : string) : bool :=
  match s with
  | EmptyString => false
  | String _ _ => all_digits s
  end.

Definition digit_value (c : ascii) : Z := Z.of_nat (nat_of_ascii c - 48).

(** Decimal value of a digit string, most significant digit first. *)
Fixpoint digits_value (acc : Z) (s : string) : Z :=
  match s with
  | EmptyString => acc
  | String c s' => digits_value (10 * acc + digit_value c)%Z s'
  end.

(** [int(s)] restricted to the strings the script passes to it: those that
    satisfy [isdigit].  Python 2 promotes to [long], so no value wraps. *)
Definition int (s : string) : Z := digits_value 0%Z s.

Definition is_newline (c : ascii) : bool := (nat_of_ascii c =? 10).

Fixpoint lstrip (p : ascii -> bool) (s : string) : string :=
  match s with
  | EmptyString => EmptyString
  | String c s' => if p c then lstrip p s' else s
  end.

(** [rstrip p s]: [s] without its longest suffix of characters in [p]. *)
Fixpoint rstrip (p : ascii -> bool) (s : string) : string :=
  match s with
  | EmptyString => EmptyString
  | String c s' =>
      match rstrip p s' with
      | EmptyString => if p c then EmptyString else String c EmptyString
      | t => String c t
      end
  end.

(** [s.strip(chars)] for the character class [p]. *)
Definition strip (p : ascii -> bool) (s : string) : string :=
  rstrip p (lstrip p s).

(** [s.split(sep)] for a one-character separator: the fields between the
    separators, empty fields included; never the empty list. *)
Fixpoint split (sep : ascii) (s : string) : list string :=
  match s with
  | EmptyString => [EmptyString]
  | String c s' =>
      if Ascii.eqb c sep then EmptyString :: split sep s'
      else match split sep s' with
           | [] => [String c EmptyString]
           | f :: fs => String c f :: fs
           end
  end.

(** [l[i:j]] for indices [0 <= i] and [0 <= j]. *)
Definition slice {A} (i j : nat) (l : list A) : list A :=
  take (j - i) (drop i l).

(** [dict(pairs)]: pairs are inserted from left to right, so for a repeated
    key the last value is the one kept. *)
Definition dict (pairs : list (string * string)) : gmap string string :=
  foldl (fun m kv => <[kv.1 := kv.2]> m) ∅ pairs.

End Py.

(** ** Python's [float] on a byte string

    [float(s)] skips white space on both sides, then reads an optional sign
    followed by [inf], [infinity] or [nan] (in any letter case) or by a
    decimal literal: digits with an optional point and an optional exponent.
    The literal is rounded to the nearest binary64 number, ties to even; the
    result is kept as the [spec_float] whose value it is. *)

Module PyFloat.

Definition prec : Z := 53.
Definition emax : Z := 1024.

Definition is_space (c : ascii) : bool :=
  let n := nat_of_ascii c in (n =? 32) || ((9 <=? n) && (n <=? 13)).

Definition lower (c : ascii) : ascii :=
  let n := nat_of_ascii c in
  if (65 <=? n) && (n <=? 90) then ascii_of_nat (n + 32) else c.

Fixpoint lowercase (s : string) : string :=
  match s with
  | EmptyString => EmptyString
  | String c s' => String (lower c) (lowercase s')
  end.

(** The longest prefix of digits of [s], and what follows it. *)
Fixpoint span_digits (s : string) : string * string :=
  match s with
  | EmptyString => (EmptyString, EmptyString)
  | String c s' =>
      if Py.is_digit c
      then let '(d, r) := span_digits s' in (String c d, r)
      else (EmptyString, s)
  end.

Definition read_sign (s : string) : bool * string :=
  match s with
  | String "-" r => (true, r)
  | String "+" r => (false, r)
  | _ => (false, s)
  end.

(** The exponent part, which must reach the end of the literal: nothing, or
    [e] or [E], an optional sign and at least one digit. *)
Definition read_exponent (s : string) : option Z :=
  match s with
  | EmptyString => Some 0%Z
  | String c r =>
      if Ascii.eqb (lower c) "e" then
        let '(neg, r') := read_sign r in
        if Py.isdigit r'
        then Some (if neg then (- Py.int r')%Z else Py.int r')
        else None
      else None
  end.

(** The binary64 number nearest to [m * 10 ^ e10], for [m >= 0]. *)
Definition of_decimal (neg : bool) (m e10 : Z) : spec_float :=
  match m with
  | Zpos p =>
      match e10 with
      | Zneg _ =>
          let d := (10 ^ (- e10))%Z in
          let s := (64 + Z.log2_up d)%Z in
          let '(q, r) := Z.div_eucl (Z.shiftl m s) d in
          let loc := if (r =? 0)%Z then loc_Exact
                     else loc_Inexact (Z.compare (2 * r) d) in
          binary_round_aux prec emax neg q (- s)%Z loc
      | _ =>
          match (m * 10 ^ e10)%Z with
          | Zpos n => binary_round prec emax neg n 0%Z
          | _ => S754_zero neg
          end
      end
  | _ => S754_zero neg
  end.

Definition float (s : string) : option spec_float :=
  let '(neg, body) := read_sign (Py.strip is_space s) in
  let word := lowercase body in
  if String.eqb word "inf" || String.eqb word "infinity"
  then Some (S754_infinity neg)
  else if String.eqb word "nan" then Some S754_nan
  else
    let '(ip, r1) := span_digits body in
    let '(fp, r2) := match r1 with
                     | String "." r => span_digits r
                     | _ => (EmptyString, r1)
                     end in
    match ip ++ fp with
    | EmptyString => None
    | ds =>
        match read_exponent r2 with
        | Some e =>
            Some (of_decimal neg (Py.int ds) (e - Z.of_nat (String.length fp)))
        | None => None
        end
    end.

End PyFloat.

(** ** Exceptions, arrays and records *)

(** The exceptions the reader can raise: [ValueError] from [float], with
    the string that could not be converted, and [NameError] for a local
    variable read before its first assignment. *)
Inductive py_error : Type :=
  | ValueError (token : string)
  | NameError (name : string).

(** What the variable [data_sizes] holds: the empty [list()] it starts
    with, or the array [np.array] built from the header's integers.  An
    array has one element type for all its entries. *)
Inductive sizes : Type :=
  | PyList (items : list Z)
  | Int64Array (items : list Z)
  | UInt64Array (items : list Z)
  | Float64Array (items : list spec_float)
  | ObjectArray (items : list Z).

(** [len(a)]. *)
Definition len (a : sizes) : nat :=
  match a with
  | PyList items | Int64Array items | UInt64Array items
  | ObjectArray items => length items
  | Float64Array items => length items
  end.

(** [float(n)] for an integer: the nearest binary64 number, ties to
    even. *)
Definition float_of_int (n : Z) : spec_float :=
  binary_normalize PyFloat.prec PyFloat.emax n 0%Z false.

Definition fits_int64 (n : Z) : bool :=
  ((- 2 ^ 63 <=? n) && (n <? 2 ^ 63))%Z.
Definition fits_uint64 (n : Z) : bool :=
  ((0 <=? n) && (n <? 2 ^ 64))%Z.

(** [np.array(l)] for a list of Python integers.  Each integer is given
    the first of the types int64, uint64, object that can hold it, and the
    array takes the common type of its entries: object as soon as one entry
    is an object; int64 or uint64 when all entries are; float64, each
    integer converted by [float], when int64 and uint64 entries are mixed;
    the empty list gives the empty float64 array. *)
Definition np_array_of_ints (l : list Z) : sizes :=
  match l with
  | [] => Float64Array []
  | _ =>
      if negb (forallb (fun n => fits_int64 n || fits_uint64 n) l)
      then ObjectArray l
      else if forallb fits_int64 l then Int64Array l
      else if forallb (fun n => negb (fits_int64 n)) l then UInt64Array l
      else Float64Array (List.map float_of_int l)
  end.

Arguments np_array_of_ints : simpl never.

(** [np.array(l)] for a list of Python floats: the float64 array of these
    numbers, given by its elements. *)
Definition np_array_of_floats (l : list spec_float) : list spec_float := l.

(** [map(float, l)]: the conversions run from left to right and the first
    failure is the exception raised. *)
Fixpoint map_float (l : list string) : py_error + list spec_float :=
  match l with
  | [] => inr []
  | t :: ts =>
      match PyFloat.float t with
      | None => inl (ValueError t)
      | Some x =>
          match map_float ts with
          | inl e => inl e
          | inr xs => inr (x :: xs)
          end
      end
  end.

(** One entry of the output list: the dict built for every result row. *)
Module Result.
Record t : Type := mk {
  group : string;
  benchmark_name : string;
  data_sizes : sizes;
  times : list spec_float;
  extra_data : gmap string string
}.
End Result.

(** ** The reader *)

(** The class [read_state]. *)
Inductive read_state : Type := start | header | result_row | finished.

Definition nonempty (x : string) : bool := negb (String.eqb x "").

Definition parse_celero_recordTable_header (header_row : list string)
  : sizes * list string * nat * nat :=
  let data_sizes := List.filter Py.isdigit header_row in
  let other_fields := List.filter (fun x => negb (Py.isdigit x)) header_row in
  let other_fields := List.filter nonempty other_fields in
  let split_start := length other_fields + 1 in
  let split_end := split_start + length data_sizes in
  let data_sizes := List.map Py.int data_sizes in
  let data_sizes := np_array_of_ints data_sizes in
  (data_sizes, other_fields, split_start, split_end).

(** The local variables of [read_celero_recordTable] that live across
    iterations of its loop.  [group_name] is first assigned inside the loop,
    so it starts unbound ([None]); [group] is the variable the script clears
    at the end of a section. *)
Module Vars.
Record t : Type := mk {
  output : list Result.t;
  state : read_state;
  group : string;
  data_sizes : sizes;
  other_fields : list string;
  split_start : nat;
  split_end : nat;
  group_name : option string
}.
End Vars.

(** The assignments before the loop. *)
Definition initial : Vars.t :=
  Vars.mk [] start "" (PyList []) [] 0 0 None.

(** "End of a group, clear variables". *)
Definition clear (v : Vars.t) : Vars.t :=
  match Vars.state v with
  | finished => Vars.mk (Vars.output v) start "" (PyList []) [] 0 0 (Vars.group_name v)
  | _ => v
  end.

(** "strip off newline, split the line, remove empty fields". *)
Definition fields (line : string) : list string :=
  List.filter nonempty (Py.split "," (Py.strip Py.is_newline line)).

Definition set_state (s : read_state) (v : Vars.t) : Vars.t :=
  Vars.mk (Vars.output v) s (Vars.group v) (Vars.data_sizes v)
    (Vars.other_fields v) (Vars.split_start v) (Vars.split_end v)
    (Vars.group_name v).

(** [output.append(result)]. *)
Definition append_output (v : Vars.t) (result : Result.t) : Vars.t :=
  Vars.mk (Vars.output v ++ [result]) (Vars.state v) (Vars.group v)
    (Vars.data_sizes v) (Vars.other_fields v) (Vars.split_start v)
    (Vars.split_end v) (Vars.group_name v).

(** The [result_row] branch, for the non-empty list [line] of fields. *)
Definition result_row_branch (v : Vars.t) (line : list string)
  : py_error + Vars.t :=
  let benchmark_name := hd "" line in
  let other_data := Py.slice 1 (Vars.split_start v) line in
  let t_times := Py.slice (Vars.split_start v) (Vars.split_end v) line in
  match map_float t_times with
  | inl e => inl e
  | inr t_times =>
      let t_times := np_array_of_floats t_times in
      let extra_data := Py.dict (zip (Vars.other_fields v) other_data) in
      match Vars.group_name v with
      | None => inl (NameError "group_name")
      | Some group_name =>
          let result :=
            Result.mk group_name benchmark_name (Vars.data_sizes v) t_times
              extra_data in
          inr (append_output v result)
      end
  end.

(** One iteration of [for line in infile]. *)
Definition loop_body (v : Vars.t) (line : string) : py_error + Vars.t :=
  let v := clear v in
  let line := fields line in
  match line with
  | [] => inr (set_state finished v)
  | name :: _ =>
      match Vars.state v with
      | start =>
          inr (Vars.mk (Vars.output v) header (Vars.group v)
                 (Vars.data_sizes v) (Vars.other_fields v)
                 (Vars.split_start v) (Vars.split_end v) (Some name))
      | header =>
          let '(data_sizes, other_fields, split_start, split_end) :=
            parse_celero_recordTable_header line in
          inr (Vars.mk (Vars.output v) result_row (Vars.group v) data_sizes
                 other_fields split_start split_end (Vars.group_name v))
      | result_row => result_row_branch v line
      | finished => inr v
      end
  end.

(** The loop over the lines of the file, from the variables [v]. *)
Fixpoint run (v : Vars.t) (infile : list string) : py_error + Vars.t :=
  match infile with
  | [] => inr v
  | line :: rest =>
      match loop_body v line with
      | inl e => inl e
      | inr v' => run v' rest
      end
  end.

(** [read_celero_recordTable], on the lines the file yields. *)
Definition read_celero_recordTable (infile : list string)
  : py_error + list Result.t :=
  match run initial infile with
  | inl e => inl e
  | inr v => inr (Vars.output v)
  end.

(** ** Listing the groups *)

(** [sorted(set(all_groups))]: the elements of the set in increasing
    byte-wise order. *)
Definition list_recordTable_groups (results : list Result.t) : list string :=
  let all_groups := List.map Result.group results in
  let unique_groups : gset string := list_to_set all_groups in
  merge_sort String.le (elements unique_groups).

(** ** The header parser against the specification's wording *)

(** The header step as the specification words it, in one pass over the
    row: a numeric token goes to the sizes, parsed as an integer; any other
    non-empty token goes to the extra-field names; both keep their order. *)
Fixpoint spec_header (row : list string) : list Z * list string :=
  match row with
  | [] => ([], [])
  | tok :: rest =>
      let '(sizes, names) := spec_header rest in
      if Py.isdigit tok then (Py.int tok :: sizes, names)
      else if nonempty tok then (sizes, tok :: names)
      else (sizes, names)
  end.

(** ** Auxiliary definitions for the statements *)

(** The entries of [a] are the integers [l], as integers. *)
Definition holds_integers (a : sizes) (l : list Z) : Prop :=
  a = PyList l \/ a = Int64Array l \/ a = UInt64Array l \/ a = ObjectArray l.


(** The binary64 numbers [1.0] and [2.0]. *)
Definition float_one : spec_float := SFone PyFloat.prec PyFloat.emax.
Definition float_two : spec_float :=
  SFldexp PyFloat.prec PyFloat.emax float_one 1.

(** A line as the file yields it: the text and its newline. *)
Definition text_line (s : string) : string := s ++ String "010" "".

(** The call raises an exception instead of returning a list. *)
Definition fails (infile : list string) : Prop :=
  exists e, read_celero_recordTable infile = inl e.

(** The variables after the group row [grp] and the header row
    [,AF_PLATFORM,128,256]. *)
Definition after_platform_header : Vars.t :=
  Vars.mk [] result_row "" (Int64Array [128%Z; 256%Z]) ["AF_PLATFORM"] 2 4
    (Some "grp").

(** A blank line: no field is left once the empty ones are removed. *)
Definition blank (line : string) : Prop := fields line = [].

(** The list a call returns, or the exception it raises. *)
Definition returned (r : py_error + Vars.t) : py_error + list Result.t :=
  match r with
  | inl e => inl e
  | inr v => inr (Vars.output v)
  end.

(** The result-row step as the specification words it: positions are
    counted over the row as split on the delimiter, empty tokens
    included. *)
Definition spec_result_row (v : Vars.t) (line : string)
  : py_error + Vars.t :=
  result_row_branch v (Py.split "," (Py.strip Py.is_newline line)).

Definition converts (t : string) : bool :=
  match PyFloat.float t with
  | Some _ => true
  | None => false
  end.

(** A data row as the specification's well-formedness words it, for a
    header that names [K] extra fields and [M] sizes: over the row as split
    on the delimiter, exactly one benchmark-name field, one value per extra
    field and one time per size, the times convertible.  Nothing is asked
    of empty fields. *)
Definition claimed_row (K M : nat) (line : string) : bool :=
  let row := Py.split "," (Py.strip Py.is_newline line) in
  (length row =? 1 + K + M)
  && forallb converts (drop (1 + K) row).

(** A data row of a well-formed section, as amended: exactly [1 + K + M]
    fields, the benchmark name and the [K] extra values non-empty, and the
    [M] times convertible. *)
Definition well_formed_row (K M : nat) (line : string) : bool :=
  let row := Py.split "," (Py.strip Py.is_newline line) in
  (length row =? 1 + K + M)
  && forallb nonempty (take (1 + K) row)
  && forallb converts (drop (1 + K) row).

(** The number of size tokens and of extra-field names of a header line. *)
Definition header_sizes (line : string) : nat :=
  length (List.filter Py.isdigit (fields line)).
Definition header_extras (line : string) : nat :=
  length (List.filter nonempty
            (List.filter (fun x => negb (Py.isdigit x)) (fields line))).

(** What the rest of a run can observe of the variables, apart from the
    output: the variables as the next iteration sees them after its
    clearing step, with [group_name] left out while a group row is
    awaited, since that row overwrites it before any use. *)
Definition view (v : Vars.t)
  : read_state * string * sizes * list string * nat * nat * option string :=
  let c := clear v in
  (Vars.state c, Vars.group c, Vars.data_sizes c, Vars.other_fields c,
   Vars.split_start c, Vars.split_end c,
   match Vars.state c with
   | start => None
   | _ => Vars.group_name c
   end).

(** [v] behaves as [w] does, with [o] already in the output. *)
Definition sim (o : list Result.t) (v w : Vars.t) : Prop :=
  Vars.output v = (o ++ Vars.output w)%list /\ view v = view w.

Definition lift_sim (o : list Result.t) (x y : py_error + Vars.t) : Prop :=
  match x, y with
  | inl e1, inl e2 => e1 = e2
  | inr v, inr w => sim o v w
  | _, _ => False
  end.

(** What holds of the variables a run can reach: while a group row is
    awaited the per-group variables are clear; once it was read [group_name]
    is bound; and while result rows are read the split offsets are those the
    header step computed. *)
Definition invariant (v : Vars.t) : Prop :=
  match Vars.state v with
  | start =>
      Vars.group v = "" /\ Vars.data_sizes v = PyList []
      /\ Vars.other_fields v = []
      /\ Vars.split_start v = 0 /\ Vars.split_end v = 0
  | header => is_Some (Vars.group_name v)
  | result_row =>
      is_Some (Vars.group_name v)
      /\ Vars.split_start v = 1 + length (Vars.other_fields v)
      /\ Vars.split_end v = Vars.split_start v + len (Vars.data_sizes v)
  | finished => True
  end.

(** Strictly increasing byte-wise order on strings. *)
Definition string_lt (s1 s2 : string) : Prop := String.ltb s1 s2 = true.

(** ** The rest of the script *)

(** The exceptions of the whole script: those of the reader, [KeyError]
    from a dict lookup, [TypeError] from [len(None)] and [IndexError] from
    indexing an empty list. *)
Inductive py_exception : Type :=
  | Err (e : py_error)
  | KeyError (key : string)
  | TypeError (message : string)
  | IndexError (message : string).

(** The loop of [list_recordTable_attribute]: every record is looked up,
    in order, and the first record without the key raises. *)
Fixpoint attribute_entries (results : list Result.t) (attribute : string)
  : py_exception + list string :=
  match results with
  | [] => inr []
  | result :: rest =>
      match Result.extra_data result !! attribute with
      | None => inl (KeyError attribute)
      | Some entry =>
          match attribute_entries rest attribute with
          | inl e => inl e
          | inr entries => inr (entry :: entries)
          end
      end
  end.

Definition list_recordTable_attribute (results : list Result.t)
    (attribute : string) : py_exception + list string :=
  match attribute_entries results attribute with
  | inl e => inl e
  | inr entries =>
      let unique_entries : gset string := list_to_set entries in
      inr (merge_sort String.le (elements unique_entries))
  end.

(** The loop of [import_directory] over the files [glob] returned, with
    [results] the list built so far; each file is given by its lines. *)
Fixpoint import_files (csv_files : list (list string))
    (results : list Result.t) : py_error + list Result.t :=
  match csv_files with
  | [] => inr results
  | infile :: rest =>
      match read_celero_recordTable infile with
      | inl e => inl e
      | inr records => import_files rest (results ++ records)%list
      end
  end.

(** [import_directory]: [glob] stands for [glob.glob] and [readlines] for
    the lines [open(filename)] yields. *)
Definition import_directory (glob : string -> list string)
    (readlines : string -> list string) (directory : string)
  : py_error + list Result.t :=
  let csv_files := glob (directory ++ "/*.csv")%string in
  import_files (List.map readlines csv_files) [].

(** The [argparse] namespace: an option that was not given is [None]; the
    two [store_true] flags are booleans. *)
Module Args.
Record t : Type := mk {
  directory : option string;
  file : option string;
  list_groups : bool;
  data_type : option string;
  groups : option (list string);
  list_backends : bool;
  backend : option (list string)
}.
End Args.

(** Truth value of an optional string and of an optional list. *)
Definition truthy (o : option string) : bool :=
  match o with
  | Some s => nonempty s
  | None => false
  end.

Definition truthy_list {A : Type} (o : option (list A)) : bool :=
  match o with
  | Some (_ :: _) => true
  | _ => false
  end.

(** [x in l] for strings. *)
Definition py_in (x : string) (l : list string) : bool :=
  existsb (String.eqb x) l.

(** [x[-3:]]: the last three characters, or all of [x] when it is
    shorter. *)
Definition last3 (x : string) : string :=
  String.substring (String.length x - 3) 3 x.

(** The groups [main] keeps: those selected by data type, then those named
    on the command line, and every group when that leaves none. *)
Definition include_groups (args : Args.t) (all_groups : list string)
  : list string :=
  let include_groups := [] in
  let include_groups :=
    if truthy (Args.data_type args)
    then List.filter
           (fun x => String.eqb (last3 x) (default "" (Args.data_type args)))
           all_groups
    else include_groups in
  let include_groups :=
    if truthy_list (Args.groups args)
    then (include_groups ++ default [] (Args.groups args))%list
    else include_groups in
  match include_groups with
  | [] => all_groups
  | _ => include_groups
  end.

(** [filter(lambda x: x['extra_data']['AF_PLATFORM'] in backend, results)]:
    the lookup runs on every record, in order. *)
Fixpoint filter_backend (backend : list string) (results : list Result.t)
  : py_exception + list Result.t :=
  match results with
  | [] => inr []
  | x :: rest =>
      match Result.extra_data x !! "AF_PLATFORM" with
      | None => inl (KeyError "AF_PLATFORM")
      | Some platform =>
          match filter_backend backend rest with
          | inl e => inl e
          | inr kept =>
              inr (if py_in platform backend then x :: kept else kept)
          end
      end
  end.

(** "Apply filtering": by group, then by backend when one was given. *)
Definition apply_filtering (args : Args.t) (results : list Result.t)
  : py_exception + list Result.t :=
  let all_groups := list_recordTable_groups results in
  let include_groups := include_groups args all_groups in
  let results :=
    List.filter (fun x => py_in (Result.group x) include_groups) results in
  if truthy_list (Args.backend args)
  then filter_backend (default [] (Args.backend args)) results
  else inr results.

(** What [main] does that can be observed: what it prints and the calls it
    makes to the three plot functions, then how it ends. *)
Inductive plot_kind : Type :=
  | time_vs_size | throughput_vs_size | image_rate_vs_size.

Inductive event : Type :=
  | Print (entry : string)
  | PrintList (entries : list string)
  | Plot (kind : plot_kind) (results : list Result.t) (show_backend : bool).

Inductive ending : Type :=
  | Returned
  | Quit
  | Raised (e : py_exception).

(** The three plot calls for one group; [plot] tells whether a call
    returns ([None]) or raises. *)
Definition plot_group
    (plot : plot_kind -> list Result.t -> bool -> option py_exception)
    (temp : list Result.t) (show_backend : bool) : list event * ending :=
  match plot time_vs_size temp show_backend with
  | Some e => ([Plot time_vs_size temp show_backend], Raised e)
  | None =>
      match plot throughput_vs_size temp show_backend with
      | Some e =>
          ([Plot time_vs_size temp show_backend;
            Plot throughput_vs_size temp show_backend], Raised e)
      | None =>
          ([Plot time_vs_size temp show_backend;
            Plot throughput_vs_size temp show_backend;
            Plot image_rate_vs_size temp show_backend],
           match plot image_rate_vs_size temp show_backend with
           | Some e => Raised e
           | None => Returned
           end)
      end
  end.

(** "make the plots": the loop over the groups of the filtered results. *)
Fixpoint make_plots
    (plot : plot_kind -> list Result.t -> bool -> option py_exception)
    (backend : option (list string)) (results : list Result.t)
    (groups : list string) : list event * ending :=
  match groups with
  | [] => ([], Returned)
  | group :: rest =>
      let temp :=
        List.filter (fun x => String.eqb (Result.group x) group) results in
      let temp :=
        List.filter
          (fun x => negb (String.eqb (Result.benchmark_name x) "Baseline"))
          temp in
      match backend with
      | None => ([], Raised (TypeError "object of type 'NoneType' has no len()"))
      | Some b =>
          let show_backend := 1 <? length b in
          match plot_group plot temp show_backend with
          | (events, Returned) =>
              let '(more, e) := make_plots plot backend results rest in
              ((events ++ more)%list, e)
          | stopped => stopped
          end
      end
  end.

(** [main], after [parse_args] has returned [args]. *)
Definition main (glob : string -> list string)
    (readlines : string -> list string)
    (plot : plot_kind -> list Result.t -> bool -> option py_exception)
    (args : Args.t) : list event * ending :=
  let loaded :=
    if truthy (Args.directory args)
    then match import_directory glob readlines
                 (default "" (Args.directory args)) with
         | inl e => inl (Err e)
         | inr results => inr results
         end
    else inl (Err (NameError "filename")) in
  match loaded with
  | inl e => ([], Raised e)
  | inr results =>
      if Args.list_groups args
      then (List.map Print (list_recordTable_groups results), Quit)
      else if Args.list_backends args
      then match list_recordTable_attribute results "AF_PLATFORM" with
           | inl e => ([], Raised e)
           | inr backends => ([PrintList backends], Quit)
           end
      else match apply_filtering args results with
           | inl e => ([], Raised e)
           | inr results =>
               make_plots plot (Args.backend args) results
                 (list_recordTable_groups results)
           end
  end.

(** ** Auxiliary definitions for the properties of the whole script *)

(** No entry is negative: for a float entry, [x < 0] is false. *)
Definition sizes_nonneg (a : sizes) : Prop :=
  match a with
  | PyList items | Int64Array items | UInt64Array items
  | ObjectArray items => Forall (fun n => (0 <= n)%Z) items
  | Float64Array items =>
      Forall (fun x => SFltb x (S754_zero false) = false) items
  end.

(** What holds of the header data a run keeps: the extra-field names are
    non-empty and not numeric, the sizes are not negative, and the group
    name, once bound, is not empty. *)
Definition header_data_ok (v : Vars.t) : Prop :=
  Forall (fun k => nonempty k = true /\ Py.isdigit k = false)
    (Vars.other_fields v)
  /\ sizes_nonneg (Vars.data_sizes v)
  /\ (forall g, Vars.group_name v = Some g -> g <> "").

(** What holds of every record the reader emits. *)
Definition record_ok (r : Result.t) : Prop :=
  length (Result.times r) <= len (Result.data_sizes r)
  /\ Result.group r <> ""
  /\ Result.benchmark_name r <> ""
  /\ sizes_nonneg (Result.data_sizes r)
  /\ forall k x, Result.extra_data r !! k = Some x ->
                 k <> "" /\ Py.isdigit k = false /\ x <> "".

(** The records of a file, or none when the file does not parse. *)
Definition records_of (infile : list string) : list Result.t :=
  match read_celero_recordTable infile with
  | inl _ => []
  | inr records => records
  end.

(** After [n] lines, the records emitted so far leave room for the group
    row and the header row that came before them. *)
Definition count_bound (n : nat) (v : Vars.t) : Prop :=
  (Vars.output v = [] \/ length (Vars.output v) + 2 <= n)
  /\ (Vars.state v = header -> length (Vars.output v) + 1 <= n)
  /\ (Vars.state v = result_row -> length (Vars.output v) + 2 <= n).

(** ** Examples *)

Example split_keeps_empty_fields :
  Py.split "," ",AF_PLATFORM,128,,256," =
  [""; "AF_PLATFORM"; "128"; ""; "256"; ""].
Proof. reflexivity. Qed.

Example strip_newlines :
  Py.strip Py.is_newline (String "010" ("a,b" ++ String "010" (String "010" ""))) = "a,b".
Proof. reflexivity. Qed.

Example isdigit_examples :
  Py.isdigit "128" = true /\ Py.isdigit "" = false /\ Py.isdigit "-5" = false
  /\ Py.isdigit "1.5" = false /\ Py.int "0128" = 128%Z.
Proof. repeat split; reflexivity. Qed.

Local Open Scope list_scope.

(** ** The header parser refines its specification *)



Lemma digits_value_nonneg s : forall acc,
  (0 <= acc)%Z -> (0 <= Py.digits_value acc s)%Z.
Proof.
  induction s as [|c s IH]; simpl; intros acc Hacc; [exact Hacc|].
  apply IH. unfold Py.digit_value. lia.
Qed.

Lemma int_nonneg s : (0 <= Py.int s)%Z.
Proof. apply digits_value_nonneg. lia. Qed.


Lemma len_np_array_of_ints l : len (np_array_of_ints l) = length l.
Proof.
  unfold np_array_of_ints. destruct l as [|n l]; [reflexivity|].
  destruct (negb _); [reflexivity|].
  destruct (forallb fits_int64 _); [reflexivity|].
  destruct (forallb _ _); [reflexivity|].
  simpl. rewrite length_map. reflexivity.
Qed.

Lemma np_array_of_ints_cases l :
  holds_integers (np_array_of_ints l) l
  \/ np_array_of_ints l = Float64Array (List.map float_of_int l).
Proof.
  unfold np_array_of_ints, holds_integers.
  destruct l as [|n l]; [right; reflexivity|].
  destruct (negb _); [left; auto|].
  destruct (forallb fits_int64 _); [left; auto|].
  destruct (forallb _ _); [left; auto|right; reflexivity].
Qed.





Example np_array_of_ints_examples :
  np_array_of_ints [128%Z; 256%Z] = Int64Array [128%Z; 256%Z]
  /\ np_array_of_ints [] = Float64Array []
  /\ np_array_of_ints [9223372036854775808%Z; 9223372036854775809%Z]
     = UInt64Array [9223372036854775808%Z; 9223372036854775809%Z]
  /\ np_array_of_ints [1%Z; 18446744073709551616%Z]
     = ObjectArray [1%Z; 18446744073709551616%Z]
  /\ np_array_of_ints [9007199254740993%Z; 9223372036854775808%Z]
     = Float64Array [S754_finite false 4503599627370496 1;
                     S754_finite false 4503599627370496 11].
Proof. repeat split; vm_compute; reflexivity. Qed.

Example spec_header_example :
  spec_header ["AF_PLATFORM"; "128"; ""; "-5"; "256"] =
  ([128%Z; 256%Z], ["AF_PLATFORM"; "-5"]).
Proof. reflexivity. Qed.

(** ** The loop, one iteration at a time *)

Lemma run_app v xs ys :
  run v (xs ++ ys) =
  match run v xs with
  | inl e => inl e
  | inr v' => run v' ys
  end.
Proof.
  revert v; induction xs as [|x xs IH]; intros v; simpl; [reflexivity|].
  destruct (loop_body v x); [reflexivity|apply IH].
Qed.

Lemma loop_body_blank v line :
  blank line -> loop_body v line = inr (set_state finished (clear v)).
Proof. unfold blank, loop_body; intros ->; reflexivity. Qed.

Lemma read_unfold infile :
  read_celero_recordTable infile = returned (run initial infile).
Proof. reflexivity. Qed.

(** Iterations from similar variables stay similar. *)
Lemma loop_body_sim o v w line :
  sim o v w -> lift_sim o (loop_body v line) (loop_body w line).
Proof.
  intros [Hout Hview].
  unfold loop_body, lift_sim, sim.
  destruct (fields line) as [|name rest] eqn:Hf;
    destruct v as [ov [] gv dv fv sv ev nv], w as [ow [] gw dw fw sw ew nw];
    simplify_eq/=; try done.
  all: unfold result_row_branch; simpl.
  all: destruct (map_float _); [reflexivity|].
  all: destruct nw; [|reflexivity].
  all: simpl; split; [|reflexivity].
  all: simpl; rewrite <- app_assoc; reflexivity.
Qed.

Lemma run_sim o infile : forall v w,
  sim o v w -> lift_sim o (run v infile) (run w infile).
Proof.
  induction infile as [|line rest IH]; intros v w Hs; simpl; [exact Hs|].
  pose proof (loop_body_sim o v w line Hs) as Hstep.
  destruct (loop_body v line), (loop_body w line); simpl in Hstep;
    try contradiction; [assumption|].
  apply IH, Hstep.
Qed.

Lemma lift_sim_returned o x y rs :
  lift_sim o x y -> returned y = inr rs -> returned x = inr (o ++ rs).
Proof.
  destruct x as [e|v], y as [e'|w]; simpl; try contradiction; try discriminate.
  intros [Hout _] [= <-]. rewrite Hout; reflexivity.
Qed.

Lemma lift_sim_nil x y : lift_sim [] x y -> returned x = returned y.
Proof.
  destruct x as [e|v], y as [e'|w]; simpl; try contradiction.
  - intros ->; reflexivity.
  - intros [Hout _]. rewrite Hout; reflexivity.
Qed.

(** While a group row is awaited and the per-group variables are clear, a
    blank line changes nothing that the rest of the run can observe. *)
Lemma blank_keeps_view v line :
  blank line ->
  view v = (start, "", PyList [], [], 0, 0, None) ->
  exists v', loop_body v line = inr v' /\ sim [] v' v.
Proof.
  intros Hb Hv. rewrite (loop_body_blank _ _ Hb).
  eexists; split; [reflexivity|].
  destruct v as [ov [] gv dv fv sv ev nv]; unfold sim, view in *;
    simplify_eq/=; split; reflexivity.
Qed.

Lemma blanks_keep_view lines : forall v,
  Forall blank lines ->
  view v = (start, "", PyList [], [], 0, 0, None) ->
  exists v', run v lines = inr v' /\ sim [] v' v.
Proof.
  induction lines as [|l ls IH]; intros v Hall Hv.
  - exists v; repeat split; reflexivity.
  - inversion Hall as [|? ? Hl Hls]; subst.
    destruct (blank_keeps_view v l Hl Hv) as (v1 & Hstep & Hout1 & Hview1).
    destruct (IH v1 Hls) as (v2 & Hrun & Hout2 & Hview2); [congruence|].
    exists v2; simpl; rewrite Hstep; split; [assumption|].
    split; [|congruence].
    rewrite Hout2, Hout1; reflexivity.
Qed.

Lemma finished_view v :
  Vars.state v = finished -> view v = (start, "", PyList [], [], 0, 0, None).
Proof.
  destruct v as [ov [] gv dv fv sv ev nv]; simpl; intros H;
    try discriminate H; reflexivity.
Qed.

(** ** What every reachable state satisfies *)

Lemma invariant_initial : invariant initial.
Proof. repeat split. Qed.

Lemma loop_body_invariant v line v' :
  invariant v -> loop_body v line = inr v' -> invariant v'.
Proof.
  unfold loop_body, invariant.
  destruct (fields line) as [|name rest];
    destruct v as [ov [] gv dv fv sv ev nv]; simpl; intros Hi Hb;
    try (injection Hb as <-; simpl; done).
  - injection Hb as <-; simpl.
    rewrite len_np_array_of_ints, length_map.
    repeat split; [assumption|lia..].
  - revert Hb. unfold result_row_branch; simpl.
    destruct (map_float _); [discriminate|].
    destruct nv; [|discriminate].
    intros [= <-]; exact Hi.
Qed.

Lemma run_invariant infile : forall v v',
  invariant v -> run v infile = inr v' -> invariant v'.
Proof.
  induction infile as [|line rest IH]; simpl; intros v v' Hi Hr.
  - injection Hr as <-; exact Hi.
  - destruct (loop_body v line) as [e|v1] eqn:Hstep; [discriminate|].
    eapply IH; [|exact Hr].
    eapply loop_body_invariant; eassumption.
Qed.

Lemma reachable_invariant pre v : run initial pre = inr v -> invariant v.
Proof. apply run_invariant, invariant_initial. Qed.

(** A reachable state that awaits a group row shows the rest of the run
    what the initial state shows. *)
Lemma awaiting_group_view v :
  invariant v -> Vars.state (clear v) = start ->
  view v = (start, "", PyList [], [], 0, 0, None).
Proof.
  unfold invariant.
  destruct v as [ov [] gv dv fv sv ev nv]; simpl; try discriminate;
    [|reflexivity].
  intros (-> & -> & -> & -> & ->) _; reflexivity.
Qed.

(** The only exception a run from the initial variables raises is the
    [ValueError] of a failed [float]: [group_name] is never read unbound. *)
Lemma map_float_error l e :
  map_float l = inl e ->
  exists t, e = ValueError t /\ In t l /\ PyFloat.float t = None.
Proof.
  induction l as [|t ts IH]; simpl; [discriminate|].
  destruct (PyFloat.float t) eqn:Ht.
  - destruct (map_float ts); [|discriminate].
    intros [= <-]. destruct (IH eq_refl) as (t' & He & Hin & Hf).
    exists t'. auto.
  - intros [= <-]. exists t. auto.
Qed.

Lemma loop_body_error v line e :
  invariant v -> loop_body v line = inl e ->
  exists t, e = ValueError t /\ PyFloat.float t = None.
Proof.
  unfold loop_body, invariant.
  destruct (fields line) as [|name rest];
    destruct v as [ov [] gv dv fv sv ev nv]; simpl; intros Hi Hb;
    try discriminate Hb.
  revert Hb. unfold result_row_branch; simpl.
  destruct (map_float _) eqn:Hm.
  - intros [= <-]. destruct (map_float_error _ _ Hm) as (t & He & _ & Hf).
    exists t. auto.
  - destruct Hi as ([g ->] & _). discriminate.
Qed.

Lemma run_error infile : forall v e,
  invariant v -> run v infile = inl e ->
  exists t, e = ValueError t /\ PyFloat.float t = None.
Proof.
  induction infile as [|line rest IH]; simpl; intros v e Hi Hr;
    [discriminate|].
  destruct (loop_body v line) as [e'|v1] eqn:Hstep.
  - injection Hr as <-. eapply loop_body_error; eassumption.
  - eapply IH; [|exact Hr]. eapply loop_body_invariant; eassumption.
Qed.

(** ** Sections and blank lines *)

Lemma clear_output v : Vars.output (clear v) = Vars.output v.
Proof. destruct v as [ov [] gv dv fv sv ev nv]; reflexivity. Qed.

Lemma after_blank_sim v :
  sim (Vars.output v) (set_state finished (clear v)) initial.
Proof.
  split; [simpl; rewrite clear_output, app_nil_r; reflexivity|].
  apply finished_view; reflexivity.
Qed.

(** C4: for two line sequences that each parse on their own, parsing the
    first, one blank line, then the second returns the records of the first
    followed by the records of the second, each in its own order. *)
Theorem sections_concatenate (a b : list string) (sep : string)
    (ra rb : list Result.t) :
  blank sep ->
  read_celero_recordTable a = inr ra ->
  read_celero_recordTable b = inr rb ->
  read_celero_recordTable (a ++ sep :: b) = inr (ra ++ rb).
Proof.
  intros Hsep Ha Hb. rewrite read_unfold in *. rewrite run_app.
  destruct (run initial a) as [e|va]; [discriminate|].
  injection Ha as <-. simpl run. rewrite (loop_body_blank _ _ Hsep).
  apply lift_sim_returned with (y := run initial b); [|exact Hb].
  apply run_sim, after_blank_sim.
Qed.

(** C10: blank lines added after a blank separator line, and blank lines
    before the first section, leave what the parser returns unchanged: a run
    of blank lines separates sections as one blank line does, and leading
    blank lines are skipped. *)
Theorem extra_blank_lines_ignored (xs ys bs : list string) (sep : string) :
  blank sep ->
  Forall blank bs ->
  read_celero_recordTable (xs ++ sep :: bs ++ ys)
    = read_celero_recordTable (xs ++ sep :: ys)
  /\ read_celero_recordTable (bs ++ ys) = read_celero_recordTable ys.
Proof.
  intros Hsep Hbs. rewrite !read_unfold. split.
  - rewrite !run_app. destruct (run initial xs) as [e|v]; [reflexivity|].
    simpl run. rewrite (loop_body_blank _ _ Hsep), run_app.
    destruct (blanks_keep_view bs (set_state finished (clear v)) Hbs)
      as (v' & -> & Hsim); [apply finished_view; reflexivity|].
    apply lift_sim_nil, run_sim, Hsim.
  - rewrite run_app.
    destruct (blanks_keep_view bs initial Hbs) as (v' & -> & Hsim);
      [reflexivity|].
    apply lift_sim_nil, run_sim, Hsim.
Qed.

(** C8: when the line after a group-name row is blank, the section adds no
    record, the next non-blank line is read as a group-name row with all
    per-group variables cleared, and the parser returns what it returns
    without the two lines. *)
Theorem blank_after_group_row (pre rest : list string) (v : Vars.t)
    (g sep : string) :
  run initial pre = inr v ->
  Vars.state (clear v) = start ->
  ~ blank g ->
  blank sep ->
  (exists v',
      run initial (pre ++ [g; sep]) = inr v'
      /\ Vars.output v' = Vars.output v
      /\ Vars.state v' = finished
      /\ forall line name more,
           fields line = name :: more ->
           loop_body v' line =
           inr (Vars.mk (Vars.output v) header "" (PyList []) [] 0 0 (Some name)))
  /\ read_celero_recordTable (pre ++ g :: sep :: rest)
     = read_celero_recordTable (pre ++ rest).
Proof.
  intros Hpre Hst Hg Hsep.
  pose proof (awaiting_group_view v (reachable_invariant _ _ Hpre) Hst) as Hv.
  assert (exists name, loop_body v g =
            inr (Vars.mk (Vars.output v) header "" (PyList []) [] 0 0 (Some name)))
    as [name Hstep].
  { unfold loop_body, blank in *.
    destruct (fields g) as [|name more]; [contradiction|].
    exists name. rewrite Hst. unfold view in Hv. rewrite clear_output.
    injection Hv as _ -> -> -> -> ->. reflexivity. }
  split.
  - eexists. rewrite run_app, Hpre. simpl run.
    rewrite Hstep, (loop_body_blank _ _ Hsep). simpl.
    split; [reflexivity|]. split; [reflexivity|]. split; [reflexivity|].
    intros line name' more Hf. unfold loop_body. rewrite Hf. reflexivity.
  - rewrite !read_unfold, !run_app, Hpre. simpl run.
    rewrite Hstep, (loop_body_blank _ _ Hsep).
    apply lift_sim_nil, run_sim.
    split; [reflexivity|]. rewrite Hv. reflexivity.
Qed.

(** ** Result rows *)

Lemma converts_nonempty t : converts t = true -> nonempty t = true.
Proof. destruct t; [discriminate|reflexivity]. Qed.

Lemma map_float_converts ts :
  forallb converts ts = true ->
  exists xs, map_float ts = inr xs /\ length xs = length ts.
Proof.
  induction ts as [|t ts IH]; simpl; [exists []; split; reflexivity|].
  unfold converts at 1. intros [Ht Hts]%andb_true_iff.
  destruct (PyFloat.float t) as [x|]; [|discriminate].
  destruct (IH Hts) as (xs & -> & Hlen).
  exists (x :: xs); simpl; split; [reflexivity|congruence].
Qed.

Lemma map_float_first_failure good bad after :
  forallb converts good = true ->
  PyFloat.float bad = None ->
  map_float (good ++ bad :: after) = inl (ValueError bad).
Proof.
  intros Hgood Hbad. induction good as [|t ts IH]; simpl.
  - rewrite Hbad; reflexivity.
  - simpl in Hgood. apply andb_true_iff in Hgood as [Ht Hts].
    unfold converts in Ht.
    destruct (PyFloat.float t); [|discriminate].
    rewrite (IH Hts); reflexivity.
Qed.

Lemma slice_length {A} (i j : nat) (l : list A) :
  length (Py.slice i j l) = Nat.min (j - i) (length l - i).
Proof. unfold Py.slice. rewrite length_take, length_drop. reflexivity. Qed.

(** What a result row adds, in terms of its non-empty fields. *)
Lemma result_row_step v line g ts :
  Vars.state v = result_row ->
  ~ blank line ->
  Vars.group_name v = Some g ->
  map_float (Py.slice (Vars.split_start v) (Vars.split_end v) (fields line))
    = inr ts ->
  loop_body v line =
  inr (append_output v
         (Result.mk g (hd "" (fields line)) (Vars.data_sizes v) ts
            (Py.dict (zip (Vars.other_fields v)
                        (Py.slice 1 (Vars.split_start v) (fields line)))))).
Proof.
  intros Hst Hnb Hg Hts. unfold loop_body, blank in *.
  assert (clear v = v) as -> by (unfold clear; rewrite Hst; reflexivity).
  destruct (fields line) as [|name more] eqn:Hf; [contradiction|].
  rewrite Hst. unfold result_row_branch. rewrite Hts, Hg. reflexivity.
Qed.

Lemma well_formed_row_fields K M line :
  well_formed_row K M line = true ->
  length (fields line) = 1 + K + M
  /\ forallb converts (drop (1 + K) (fields line)) = true
  /\ fields line = Py.split "," (Py.strip Py.is_newline line).
Proof.
  unfold well_formed_row, fields.
  set (row := Py.split "," (Py.strip Py.is_newline line)).
  intros [[Hlen Hne]%andb_true_iff Hconv]%andb_true_iff.
  apply Nat.eqb_eq in Hlen.
  assert (List.filter nonempty row = row) as ->; [|auto].
  apply forallb_filter_id.
  rewrite <- (take_drop (1 + K) row), forallb_app, Hne.
  apply forallb_forall. intros t Ht.
  apply converts_nonempty.
  eapply forallb_forall in Hconv; eassumption.
Qed.

Lemma well_formed_row_step K M v line g :
  Vars.state v = result_row ->
  Vars.group_name v = Some g ->
  Vars.split_start v = 1 + K ->
  Vars.split_end v = 1 + K + M ->
  well_formed_row K M line = true ->
  exists r,
    loop_body v line = inr (append_output v r)
    /\ length (Result.times r) = M
    /\ Result.data_sizes r = Vars.data_sizes v.
Proof.
  intros Hst Hg Hss Hse Hwf.
  destruct (well_formed_row_fields _ _ _ Hwf) as (Hlen & Hconv & _).
  assert (Py.slice (1 + K) (1 + K + M) (fields line)
          = drop (1 + K) (fields line)) as Hslice.
  { unfold Py.slice. apply take_ge. rewrite length_drop. lia. }
  destruct (map_float_converts _ Hconv) as (ts & Hts & Hlts).
  eexists. split; [|split].
  - apply result_row_step with (g := g) (ts := ts); try assumption.
    + unfold blank. destruct (fields line); [discriminate|discriminate].
    + rewrite Hss, Hse, Hslice. exact Hts.
  - simpl. rewrite Hlts, length_drop. lia.
  - reflexivity.
Qed.

Lemma well_formed_rows_run K M rows : forall v g,
  Vars.state v = result_row ->
  Vars.group_name v = Some g ->
  Vars.split_start v = 1 + K ->
  Vars.split_end v = 1 + K + M ->
  forallb (well_formed_row K M) rows = true ->
  exists v' rs,
    run v rows = inr v'
    /\ Vars.output v' = Vars.output v ++ rs
    /\ length rs = length rows
    /\ Forall (fun r => length (Result.times r) = M
                        /\ Result.data_sizes r = Vars.data_sizes v) rs.
Proof.
  induction rows as [|row rows IH]; intros v g Hst Hg Hss Hse Hwf.
  - exists v, []. rewrite app_nil_r. repeat split; constructor.
  - simpl in Hwf. apply andb_true_iff in Hwf as [Hrow Hrows].
    destruct (well_formed_row_step K M v row g Hst Hg Hss Hse Hrow)
      as (r & Hstep & Hlen & Hds).
    destruct (IH (append_output v r) g) as (v' & rs & Hrun & Hout & Hn & Hall);
      try assumption.
    exists v', (r :: rs). simpl. rewrite Hstep.
    split; [exact Hrun|]. split; [|split].
    + rewrite Hout. simpl. rewrite <- app_assoc. reflexivity.
    + simpl; congruence.
    + constructor; [split; assumption|exact Hall].
Qed.

(** The group-name row and the header row, one iteration each. *)
Lemma group_row_step v line name more :
  Vars.state (clear v) = start ->
  fields line = name :: more ->
  loop_body v line =
  inr (Vars.mk (Vars.output v) header (Vars.group (clear v))
         (Vars.data_sizes (clear v)) (Vars.other_fields (clear v))
         (Vars.split_start (clear v)) (Vars.split_end (clear v))
         (Some name)).
Proof.
  intros Hst Hf. unfold loop_body. rewrite Hf, Hst, clear_output.
  reflexivity.
Qed.

Lemma header_row_step v line :
  Vars.state v = header ->
  ~ blank line ->
  loop_body v line =
  inr (Vars.mk (Vars.output v) result_row (Vars.group v)
         (np_array_of_ints
            (List.map Py.int (List.filter Py.isdigit (fields line))))
         (List.filter nonempty
            (List.filter (fun x => negb (Py.isdigit x)) (fields line)))
         (1 + header_extras line)
         (1 + header_extras line + header_sizes line)
         (Vars.group_name v)).
Proof.
  intros Hst Hnb. unfold loop_body, blank in *.
  assert (clear v = v) as -> by (unfold clear; rewrite Hst; reflexivity).
  unfold header_extras, header_sizes.
  destruct (fields line) as [|tok toks]; [contradiction|].
  rewrite Hst. unfold parse_celero_recordTable_header.
  rewrite (Nat.add_comm _ 1). reflexivity.
Qed.

(** C1, as stated, fails: under the header [,AF_PLATFORM,128,256] (one
    extra field, two sizes) the row [cpu,,1.0,2.0] has one benchmark-name
    field, one value for the extra field and one time per size, but its
    value is empty; the empty field is removed before slicing and the
    record has one time for two data sizes. *)
Lemma empty_extra_value_counterexample :
  header_extras (text_line ",AF_PLATFORM,128,256") = 1
  /\ header_sizes (text_line ",AF_PLATFORM,128,256") = 2
  /\ claimed_row 1 2 (text_line "cpu,,1.0,2.0") = true
  /\ read_celero_recordTable
       [text_line "grp"; text_line ",AF_PLATFORM,128,256";
        text_line "cpu,,1.0,2.0"]
     = inr [Result.mk "grp" "cpu" (Int64Array [128%Z; 256%Z]) [float_two]
              {[ "AF_PLATFORM" := "1.0" ]}]
  /\ length [float_two] <> len (Int64Array [128%Z; 256%Z]).
Proof.
  split; [reflexivity|]. split; [reflexivity|].
  split; [vm_compute; reflexivity|].
  split; [vm_compute; reflexivity|]. discriminate.
Qed.

(** C1, amended: for a well-formed single-group input (a non-blank
    group-name line, a non-blank header line with K extra-field names and M
    size tokens, and data rows that each have exactly one non-empty
    benchmark-name field, one non-empty value per extra field and one
    convertible time per size), the parser returns one record per data row,
    and every record has len(times) = len(data_sizes) = M. *)
Theorem well_formed_section_lengths (g hdr : string) (rows : list string)
    (K M : nat) :
  ~ blank g ->
  ~ blank hdr ->
  header_extras hdr = K ->
  header_sizes hdr = M ->
  forallb (well_formed_row K M) rows = true ->
  exists rs,
    read_celero_recordTable (g :: hdr :: rows) = inr rs
    /\ length rs = length rows
    /\ Forall (fun r => length (Result.times r) = M
                        /\ len (Result.data_sizes r) = M) rs.
Proof.
  intros Hg Hh HK HM Hrows.
  rewrite read_unfold. simpl run.
  destruct (fields g) as [|name more] eqn:Hf; [contradiction|].
  rewrite (group_row_step initial g name more eq_refl Hf).
  rewrite header_row_step by (reflexivity || assumption).
  rewrite HK, HM.
  match goal with |- context [run ?w rows] => set (v := w) end.
  destruct (well_formed_rows_run K M rows v name)
    as (v' & rs & -> & Hout & Hlen & Hall); try assumption; try reflexivity.
  exists rs. simpl in Hout. subst rs. split; [reflexivity|].
  split; [assumption|].
  eapply Forall_impl; [exact Hall|].
  intros r [-> ->]. split; [reflexivity|].
  simpl. rewrite len_np_array_of_ints, length_map. exact HM.
Qed.

(** C3: a section whose header row is [,AF_PLATFORM,128,256] and whose
    single data row is [cpu,CUDA,1.0,2.0] yields exactly one record, with
    data_sizes [128, 256], extra_data {'AF_PLATFORM': 'CUDA'}, times
    [1.0, 2.0] and benchmark_name 'cpu'; its group is the first field of
    the group-name row. *)
Theorem platform_example (g hdr row name : string) (more : list string) :
  fields g = name :: more ->
  Py.strip Py.is_newline hdr = ",AF_PLATFORM,128,256" ->
  Py.strip Py.is_newline row = "cpu,CUDA,1.0,2.0" ->
  read_celero_recordTable [g; hdr; row] =
  inr [Result.mk name "cpu" (Int64Array [128%Z; 256%Z]) [float_one; float_two]
         {[ "AF_PLATFORM" := "CUDA" ]}].
Proof.
  intros Hg Hh Hr.
  assert (fields hdr = ["AF_PLATFORM"; "128"; "256"]) as Hfh
    by (unfold fields; rewrite Hh; reflexivity).
  assert (fields row = ["cpu"; "CUDA"; "1.0"; "2.0"]) as Hfr
    by (unfold fields; rewrite Hr; reflexivity).
  rewrite read_unfold. simpl run.
  rewrite (group_row_step initial g name more eq_refl Hg).
  rewrite header_row_step
    by (reflexivity || (unfold blank; rewrite Hfh; discriminate)).
  unfold header_extras, header_sizes. rewrite Hfh.
  rewrite result_row_step with (g := name)
    (ts := [float_one; float_two]);
    try reflexivity.
  - rewrite Hfr. reflexivity.
  - unfold blank; rewrite Hfr; discriminate.
  - rewrite Hfr. vm_compute. reflexivity.
Qed.

(** ** Empty fields, malformed tokens and rows of the wrong width *)

Example after_platform_header_reached :
  run initial [text_line "grp"; text_line ",AF_PLATFORM,128,256"]
  = inr after_platform_header.
Proof. reflexivity. Qed.

(** C5, as stated, fails: for the header [,AF_PLATFORM,128,256] and the row
    [cpu,,1.0,2.0], whose platform value is empty, slicing the row as split
    on the delimiter would give the extra value [''] and the times
    [1.0, 2.0]; the code, which removes the empty field first, records the
    extra value ['1.0'] and the single time [2.0]. *)
Lemma result_row_positions_counterexample :
  loop_body after_platform_header (text_line "cpu,,1.0,2.0")
  = inr (append_output after_platform_header
           (Result.mk "grp" "cpu" (Int64Array [128%Z; 256%Z]) [float_two]
              {[ "AF_PLATFORM" := "1.0" ]}))
  /\ spec_result_row after_platform_header (text_line "cpu,,1.0,2.0")
     = inr (append_output after_platform_header
              (Result.mk "grp" "cpu" (Int64Array [128%Z; 256%Z]) [float_one; float_two]
                 {[ "AF_PLATFORM" := "" ]}))
  /\ loop_body after_platform_header (text_line "cpu,,1.0,2.0")
     <> spec_result_row after_platform_header (text_line "cpu,,1.0,2.0").
Proof.
  assert (loop_body after_platform_header (text_line "cpu,,1.0,2.0")
          = inr (append_output after_platform_header
                   (Result.mk "grp" "cpu" (Int64Array [128%Z; 256%Z]) [float_two]
                      {[ "AF_PLATFORM" := "1.0" ]}))) as Hcode
    by (vm_compute; reflexivity).
  assert (spec_result_row after_platform_header (text_line "cpu,,1.0,2.0")
          = inr (append_output after_platform_header
                   (Result.mk "grp" "cpu" (Int64Array [128%Z; 256%Z])
                      [float_one; float_two] {[ "AF_PLATFORM" := "" ]})))
    as Hspec by (vm_compute; reflexivity).
  split; [exact Hcode|]. split; [exact Hspec|].
  rewrite Hcode, Hspec. intros H. discriminate H.
Qed.

(** C5, amended: a result row is sliced after its empty fields are removed.
    Of the non-empty fields of the row, in order, the first is the benchmark
    name, those at positions [1, split_start) are the extra-data values and
    those at [split_start, split_end) are the times; for a row without empty
    fields these are the positions of the row as split on the delimiter. *)
Theorem result_row_uses_nonempty_fields (pre : list string) (v : Vars.t)
    (line : string) (toks : list string) (ts : list spec_float) :
  run initial pre = inr v ->
  Vars.state v = result_row ->
  toks = List.filter nonempty (Py.split "," (Py.strip Py.is_newline line)) ->
  toks <> [] ->
  map_float (Py.slice (Vars.split_start v) (Vars.split_end v) toks) = inr ts ->
  (exists g,
      Vars.group_name v = Some g
      /\ loop_body v line =
         inr (append_output v
                (Result.mk g (hd "" toks) (Vars.data_sizes v) ts
                   (Py.dict (zip (Vars.other_fields v)
                               (Py.slice 1 (Vars.split_start v) toks))))))
  /\ (forallb nonempty (Py.split "," (Py.strip Py.is_newline line)) = true ->
      loop_body v line = spec_result_row v line).
Proof.
  intros Hpre Hst Htoks Hne Hts.
  pose proof (reachable_invariant _ _ Hpre) as Hi.
  unfold invariant in Hi. rewrite Hst in Hi. destruct Hi as ([g Hg] & _).
  assert (fields line = toks) as Hf by (symmetry; exact Htoks).
  split.
  - exists g. split; [exact Hg|].
    rewrite <- Hf. apply result_row_step; try assumption.
    + unfold blank. rewrite Hf. exact Hne.
    + rewrite Hf. exact Hts.
  - intros Hall. unfold spec_result_row, loop_body.
    assert (clear v = v) as -> by (unfold clear; rewrite Hst; reflexivity).
    rewrite Hf. destruct toks as [|name more]; [contradiction|].
    rewrite Hst. rewrite Htoks, (forallb_filter_id _ _ Hall). reflexivity.
Qed.

Lemma result_row_uses_nonempty_fields_witness :
  loop_body after_platform_header (text_line "cpu,,1.0,2.0")
  = inr (append_output after_platform_header
           (Result.mk "grp" "cpu" (Int64Array [128%Z; 256%Z]) [float_two]
              (Py.dict (zip ["AF_PLATFORM"] ["1.0"])))).
Proof.
  destruct (result_row_uses_nonempty_fields
              [text_line "grp"; text_line ",AF_PLATFORM,128,256"]
              after_platform_header (text_line "cpu,,1.0,2.0")
              ["cpu"; "1.0"; "2.0"] [float_two])
    as [[g [Hg Hstep]] _].
  - reflexivity.
  - reflexivity.
  - reflexivity.
  - discriminate.
  - vm_compute. reflexivity.
  - injection Hg as <-. exact Hstep.
Defined.

(** C6, as stated, fails: the header row [,AF_PLATFORM,128,12x] has the
    non-numeric token [12x] among its sizes, and the parser returns
    normally, with [12x] taken as the name of an extra field. *)
Lemma header_token_counterexample :
  read_celero_recordTable
    [text_line "grp"; text_line ",AF_PLATFORM,128,12x";
     text_line "cpu,CUDA,1.0,2.0"]
  = inr [Result.mk "grp" "cpu" (Int64Array [128%Z]) [float_two]
           {[ "AF_PLATFORM" := "CUDA"; "12x" := "1.0" ]}]
  /\ ~ fails [text_line "grp"; text_line ",AF_PLATFORM,128,12x";
              text_line "cpu,CUDA,1.0,2.0"].
Proof.
  assert (read_celero_recordTable
            [text_line "grp"; text_line ",AF_PLATFORM,128,12x";
             text_line "cpu,CUDA,1.0,2.0"]
          = inr [Result.mk "grp" "cpu" (Int64Array [128%Z]) [float_two]
                   {[ "AF_PLATFORM" := "CUDA"; "12x" := "1.0" ]}]) as H
    by (vm_compute; reflexivity).
  split; [exact H|]. intros [e He]. rewrite H in He. discriminate He.
Qed.

Lemma fields_nonempty line tok : In tok (fields line) -> nonempty tok = true.
Proof. unfold fields. intros [_ H]%filter_In. exact H. Qed.

(** C6, amended: a header row never makes the parser fail; each of its
    non-numeric tokens becomes the name of an extra field.  In a result row,
    the first of the non-empty fields at positions [split_start, split_end)
    that [float] cannot convert makes the whole call raise [ValueError] with
    that field, and no list is returned. *)
Theorem malformed_tokens (pre rest : list string) (v : Vars.t)
    (line : string) :
  run initial pre = inr v ->
  ~ blank line ->
  (Vars.state v = header ->
   exists v',
     loop_body v line = inr v'
     /\ Vars.state v' = result_row
     /\ Vars.output v' = Vars.output v
     /\ forall tok, In tok (fields line) -> Py.isdigit tok = false ->
                    In tok (Vars.other_fields v'))
  /\ (Vars.state v = result_row ->
      forall good bad after,
        Py.slice (Vars.split_start v) (Vars.split_end v) (fields line)
          = good ++ bad :: after ->
        forallb converts good = true ->
        PyFloat.float bad = None ->
        read_celero_recordTable (pre ++ line :: rest)
          = inl (ValueError bad)).
Proof.
  intros Hpre Hnb. split.
  - intros Hst. eexists. split; [apply header_row_step; assumption|].
    simpl. split; [reflexivity|]. split; [reflexivity|].
    intros tok Hin Hnd. apply filter_In. split.
    + apply filter_In. split; [exact Hin|]. rewrite Hnd; reflexivity.
    + eapply fields_nonempty, Hin.
  - intros Hst good bad after Hslice Hgood Hbad.
    rewrite read_unfold, run_app, Hpre. simpl run.
    unfold loop_body, blank in *.
    assert (clear v = v) as -> by (unfold clear; rewrite Hst; reflexivity).
    destruct (fields line) as [|name more]; [contradiction|].
    rewrite Hst. unfold result_row_branch.
    rewrite Hslice, (map_float_first_failure _ _ _ Hgood Hbad).
    reflexivity.
Qed.

Lemma malformed_tokens_witness :
  read_celero_recordTable
    [text_line "grp"; text_line ",AF_PLATFORM,128,256";
     text_line "cpu,CUDA,1.0,abc"; text_line "gpu,CUDA,3.0,4.0"]
  = inl (ValueError "abc").
Proof.
  refine (proj2 (malformed_tokens
                   [text_line "grp"; text_line ",AF_PLATFORM,128,256"]
                   [text_line "gpu,CUDA,3.0,4.0"]
                   after_platform_header (text_line "cpu,CUDA,1.0,abc")
                   _ _) _ ["1.0"] "abc" [] _ _ _).
  - reflexivity.
  - discriminate.
  - reflexivity.
  - reflexivity.
  - vm_compute. reflexivity.
  - reflexivity.
Defined.

(** C7, as stated, fails: after the header [,AF_PLATFORM,128,256] the row
    [cpu,CUDA,1.0] is one field short, and the parser returns normally a
    record with one time for two data sizes. *)
Lemma short_row_counterexample :
  read_celero_recordTable
    [text_line "grp"; text_line ",AF_PLATFORM,128,256";
     text_line "cpu,CUDA,1.0"]
  = inr [Result.mk "grp" "cpu" (Int64Array [128%Z; 256%Z]) [float_one]
           {[ "AF_PLATFORM" := "CUDA" ]}]
  /\ ~ fails [text_line "grp"; text_line ",AF_PLATFORM,128,256";
              text_line "cpu,CUDA,1.0"].
Proof.
  assert (read_celero_recordTable
            [text_line "grp"; text_line ",AF_PLATFORM,128,256";
             text_line "cpu,CUDA,1.0"]
          = inr [Result.mk "grp" "cpu" (Int64Array [128%Z; 256%Z]) [float_one]
                   {[ "AF_PLATFORM" := "CUDA" ]}]) as H
    by (vm_compute; reflexivity).
  split; [exact H|]. intros [e He]. rewrite H in He. discriminate He.
Qed.

(** C7, amended: a result row with fewer or more non-empty fields than the
    header implies is not an error.  With K extra-field names, M data sizes
    and n non-empty fields in the row, if the fields at positions
    [split_start, split_end) convert, one record is appended; it has
    min(n - (1 + K), M) times, the data sizes of the header, and the
    extra-field names paired with the fields at [1, 1 + K) as far as both
    last; fields past split_end are ignored. *)
Theorem row_width_mismatch_truncates (pre : list string) (v : Vars.t)
    (line : string) :
  run initial pre = inr v ->
  Vars.state v = result_row ->
  ~ blank line ->
  forallb converts
    (Py.slice (Vars.split_start v) (Vars.split_end v) (fields line)) = true ->
  exists r,
    run initial (pre ++ [line]) = inr (append_output v r)
    /\ length (Result.times r)
       = Nat.min (length (fields line) - (1 + length (Vars.other_fields v)))
           (len (Vars.data_sizes v))
    /\ Result.data_sizes r = Vars.data_sizes v
    /\ Result.extra_data r
       = Py.dict (zip (Vars.other_fields v)
                    (Py.slice 1 (1 + length (Vars.other_fields v))
                       (fields line))).
Proof.
  intros Hpre Hst Hnb Hconv.
  pose proof (reachable_invariant _ _ Hpre) as Hi.
  unfold invariant in Hi. rewrite Hst in Hi.
  destruct Hi as ([g Hg] & Hss & Hse).
  destruct (map_float_converts _ Hconv) as (ts & Hts & Hlen).
  eexists. split; [|split; [|split]].
  - rewrite run_app, Hpre. simpl run.
    rewrite (result_row_step v line g ts Hst Hnb Hg Hts). reflexivity.
  - simpl. rewrite Hlen, slice_length, Hse, Hss. lia.
  - reflexivity.
  - simpl. rewrite Hss. reflexivity.
Qed.

Lemma row_width_mismatch_truncates_witness :
  exists r,
    run initial [text_line "grp"; text_line ",AF_PLATFORM,128,256";
                 text_line "cpu,CUDA,1.0"]
    = inr (append_output after_platform_header r)
    /\ length (Result.times r) = 1
    /\ Result.data_sizes r = Int64Array [128%Z; 256%Z].
Proof.
  destruct (row_width_mismatch_truncates
              [text_line "grp"; text_line ",AF_PLATFORM,128,256"]
              after_platform_header (text_line "cpu,CUDA,1.0"))
    as (r & Hrun & Hlen & Hds & _).
  - reflexivity.
  - reflexivity.
  - discriminate.
  - vm_compute. reflexivity.
  - exists r. split; [exact Hrun|]. split; [exact Hlen|exact Hds].
Defined.

(** ** Listing the groups *)

Lemma le_ne_lt (s1 s2 : string) :
  String.le s1 s2 -> s1 <> s2 -> string_lt s1 s2.
Proof.
  unfold String.le, string_lt, String.leb, String.ltb.
  intros Hle Hne. destruct (String.compare s1 s2) eqn:Hc.
  - apply String.compare_eq_iff in Hc. contradiction.
  - reflexivity.
  - contradiction.
Qed.

Lemma lt_irrefl (s : string) : ~ string_lt s s.
Proof.
  unfold string_lt, String.ltb. intros H.
  assert (String.compare s s = Eq) as Heq.
  { pose proof (String.compare_antisym s s) as Ha.
    destruct (String.compare s s); simpl in Ha; congruence. }
  rewrite Heq in H. discriminate H.
Qed.

Lemma sorted_nodup_strict (l : list string) :
  StronglySorted String.le l -> NoDup l -> StronglySorted string_lt l.
Proof.
  induction 1 as [|x l Hs IH Hx]; intros Hnd; [constructor|].
  apply NoDup_cons in Hnd as [Hnotin Hnd].
  constructor; [apply IH, Hnd|].
  rewrite Forall_forall in *. intros y Hy.
  apply le_ne_lt; [apply Hx, Hy|].
  intros ->. contradiction.
Qed.

Lemma strict_nodup (l : list string) :
  StronglySorted string_lt l -> NoDup l.
Proof.
  induction 1 as [|x l Hs IH Hx]; [constructor|].
  apply NoDup_cons. split; [|exact IH].
  intros Hin. rewrite Forall_forall in Hx.
  exact (lt_irrefl x (Hx x Hin)).
Qed.

(** C9: for every list of records, list_groups returns the distinct group
    values, strictly sorted and hence without duplicates. *)
Theorem list_groups_strictly_sorted (results : list Result.t) :
  StronglySorted string_lt (list_recordTable_groups results)
  /\ NoDup (list_recordTable_groups results)
  /\ forall g, g ∈ list_recordTable_groups results
               <-> exists r, r ∈ results /\ Result.group r = g.
Proof.
  unfold list_recordTable_groups.
  set (unique_groups := list_to_set (List.map Result.group results)).
  assert (StronglySorted string_lt
            (merge_sort String.le (elements unique_groups))) as Hsorted.
  { apply sorted_nodup_strict.
    - apply (StronglySorted_merge_sort String.le).
    - rewrite merge_sort_Permutation. apply NoDup_elements. }
  split; [exact Hsorted|]. split; [exact (strict_nodup _ Hsorted)|].
  intros g. rewrite merge_sort_Permutation, elem_of_elements.
  unfold unique_groups. rewrite elem_of_list_to_set.
  change (List.map Result.group results) with (Result.group <$> results).
  rewrite list_elem_of_fmap. split.
  - intros (r & -> & Hr). exists r. split; [exact Hr|reflexivity].
  - intros (r & Hr & <-). exists r. split; [reflexivity|exact Hr].
Qed.

Example list_groups_example :
  list_recordTable_groups
    [Result.mk "fft_f32" "cpu" (Float64Array []) [] ∅; Result.mk "blur_f64" "cpu" (Float64Array []) [] ∅;
     Result.mk "fft_f32" "gpu" (Float64Array []) [] ∅; Result.mk "Sort" "cpu" (Float64Array []) [] ∅]
  = ["Sort"; "blur_f64"; "fft_f32"].
Proof. vm_compute. reflexivity. Qed.

(** ** The theorems at concrete inputs *)

Lemma well_formed_section_lengths_witness :
  exists rs,
    read_celero_recordTable
      (text_line "fft_f32,," :: text_line ",AF_PLATFORM,128,256"
         :: [text_line "cpu,CUDA,1.0,2.0"; text_line "gpu,OpenCL,0.5,0.25"])
    = inr rs
    /\ length rs = 2
    /\ Forall (fun r => length (Result.times r) = 2
                        /\ len (Result.data_sizes r) = 2) rs.
Proof.
  apply (well_formed_section_lengths
           (text_line "fft_f32,,") (text_line ",AF_PLATFORM,128,256")
           [text_line "cpu,CUDA,1.0,2.0"; text_line "gpu,OpenCL,0.5,0.25"]
           1 2).
  - discriminate.
  - discriminate.
  - reflexivity.
  - reflexivity.
  - vm_compute. reflexivity.
Defined.

Lemma platform_example_witness :
  read_celero_recordTable
    [text_line "fft_f32,,"; text_line ",AF_PLATFORM,128,256";
     text_line "cpu,CUDA,1.0,2.0"]
  = inr [Result.mk "fft_f32" "cpu" (Int64Array [128%Z; 256%Z]) [float_one; float_two]
           {[ "AF_PLATFORM" := "CUDA" ]}].
Proof.
  apply (platform_example (text_line "fft_f32,,")
           (text_line ",AF_PLATFORM,128,256") (text_line "cpu,CUDA,1.0,2.0")
           "fft_f32" []).
  - reflexivity.
  - reflexivity.
  - reflexivity.
Defined.

Lemma sections_concatenate_witness :
  read_celero_recordTable
    ([text_line "fft_f32"; text_line ",AF_PLATFORM,128";
      text_line "cpu,CUDA,1.0"]
     ++ text_line ",," ::
     [text_line "blur_f64"; text_line ",256"; text_line "gpu,2.0"])
  = inr ([Result.mk "fft_f32" "cpu" (Int64Array [128%Z]) [float_one]
            {[ "AF_PLATFORM" := "CUDA" ]}]
         ++ [Result.mk "blur_f64" "gpu" (Int64Array [256%Z]) [float_two] ∅]).
Proof.
  apply sections_concatenate.
  - reflexivity.
  - vm_compute. reflexivity.
  - vm_compute. reflexivity.
Defined.

Lemma blank_after_group_row_witness :
  read_celero_recordTable
    ([] ++ text_line "fft_f32" :: text_line ""
        :: [text_line "blur_f64"; text_line ",256"; text_line "gpu,2.0"])
  = read_celero_recordTable
      ([] ++ [text_line "blur_f64"; text_line ",256"; text_line "gpu,2.0"]).
Proof.
  refine (proj2 (blank_after_group_row []
                   [text_line "blur_f64"; text_line ",256";
                    text_line "gpu,2.0"]
                   initial (text_line "fft_f32") (text_line "") _ _ _ _)).
  - reflexivity.
  - reflexivity.
  - discriminate.
  - reflexivity.
Defined.

Lemma extra_blank_lines_ignored_witness :
  read_celero_recordTable
    ([text_line "fft_f32"; text_line ",128"; text_line "cpu,1.0"]
     ++ text_line "" :: [text_line ",,"; "" ]
     ++ [text_line "blur_f64"; text_line ",256"; text_line "gpu,2.0"])
  = read_celero_recordTable
      ([text_line "fft_f32"; text_line ",128"; text_line "cpu,1.0"]
       ++ text_line ""
       :: [text_line "blur_f64"; text_line ",256"; text_line "gpu,2.0"])
  /\ read_celero_recordTable
       ([text_line ",,"; ""]
        ++ [text_line "blur_f64"; text_line ",256"; text_line "gpu,2.0"])
     = read_celero_recordTable
         [text_line "blur_f64"; text_line ",256"; text_line "gpu,2.0"].
Proof.
  apply (extra_blank_lines_ignored
           [text_line "fft_f32"; text_line ",128"; text_line "cpu,1.0"]
           [text_line "blur_f64"; text_line ",256"; text_line "gpu,2.0"]
           [text_line ",,"; ""] (text_line "")).
  - reflexivity.
  - repeat constructor.
Defined.

(** ** Further properties of the reader *)

Lemma slice_subset {A} (i j : nat) (l : list A) (x : A) :
  In x (Py.slice i j l) -> In x l.
Proof.
  unfold Py.slice. intros H.
  rewrite <- (take_drop i l). apply in_or_app. right.
  rewrite <- (take_drop (j - i) (drop i l)). apply in_or_app. left. exact H.
Qed.

Lemma loop_body_error_field v line e :
  invariant v -> loop_body v line = inl e ->
  exists t, e = ValueError t /\ PyFloat.float t = None /\ In t (fields line).
Proof.
  unfold loop_body, invariant.
  destruct (fields line) as [|name rest];
    destruct v as [ov [] gv dv fv sv ev nv]; simpl; intros Hi Hb;
    try discriminate Hb.
  revert Hb. unfold result_row_branch; simpl.
  destruct (map_float _) eqn:Hm.
  - intros [= <-]. destruct (map_float_error _ _ Hm) as (t & He & Hin & Hf).
    exists t. split; [exact He|]. split; [exact Hf|].
    exact (slice_subset _ _ _ _ Hin).
  - destruct Hi as ([g ->] & _). discriminate.
Qed.

Lemma run_error_field infile : forall v e,
  invariant v -> run v infile = inl e ->
  exists t line,
    e = ValueError t /\ PyFloat.float t = None
    /\ In line infile /\ In t (fields line).
Proof.
  induction infile as [|line rest IH]; simpl; intros v e Hi Hr;
    [discriminate|].
  destruct (loop_body v line) as [e'|v1] eqn:Hstep.
  - injection Hr as <-.
    destruct (loop_body_error_field _ _ _ Hi Hstep) as (t & He & Hf & Hin).
    exists t, line. auto.
  - destruct (IH v1 e) as (t & l & He & Hf & Hl & Hin); [|exact Hr|].
    + eapply loop_body_invariant; eassumption.
    + exists t, l. auto.
Qed.

(** X1: The only exception the reader raises is the [ValueError] of [float],
    for a non-empty field of some line that [float] cannot convert. *)
Theorem read_raises_only_value_errors (infile : list string) (e : py_error) :
  read_celero_recordTable infile = inl e ->
  exists t line,
    e = ValueError t /\ PyFloat.float t = None
    /\ In line infile /\ In t (fields line).
Proof.
  rewrite read_unfold. destruct (run initial infile) as [e'|v] eqn:Hr;
    [|discriminate].
  intros [= <-]. eapply run_error_field; [apply invariant_initial|exact Hr].
Qed.

Lemma read_raises_only_value_errors_witness :
  exists t line,
    ValueError "abc" = ValueError t /\ PyFloat.float t = None
    /\ In line [text_line "grp"; text_line ",128"; text_line "cpu,abc"]
    /\ In t (fields line).
Proof.
  apply (read_raises_only_value_errors
           [text_line "grp"; text_line ",128"; text_line "cpu,abc"]).
  vm_compute. reflexivity.
Defined.

(** *** What every emitted record satisfies *)

Lemma nonempty_ne s : nonempty s = true <-> s <> "".
Proof.
  unfold nonempty. destruct s; simpl; split; try congruence; auto.
Qed.

Lemma dict_lookup_pairs pairs k x :
  Py.dict pairs !! k = Some x -> In (k, x) pairs.
Proof.
  unfold Py.dict.
  assert (forall m : gmap string string,
            foldl (fun m kv => <[kv.1 := kv.2]> m) m pairs !! k = Some x ->
            In (k, x) pairs \/ m !! k = Some x) as Hgen.
  { induction pairs as [|[k' x'] ps IH]; simpl; intros m H; [right; exact H|].
    destruct (IH _ H) as [Hin|Hm]; [left; right; exact Hin|].
    destruct (decide (k' = k)) as [->|Hne].
    - rewrite lookup_insert_eq in Hm. injection Hm as ->. left; left; reflexivity.
    - rewrite lookup_insert_ne in Hm by exact Hne. right; exact Hm. }
  intros H. destruct (Hgen ∅ H) as [Hin|Hm]; [exact Hin|].
  rewrite lookup_empty in Hm. discriminate.
Qed.

Lemma in_zip {A B} (ks : list A) (vs : list B) k x :
  In (k, x) (zip ks vs) -> In k ks /\ In x vs.
Proof.
  revert vs; induction ks as [|k' ks IH]; intros [|x' vs]; simpl;
    try contradiction.
  intros [[= -> ->]|H]; [auto|]. destruct (IH _ H); auto.
Qed.

Lemma map_float_length l : forall ts,
  map_float l = inr ts -> length ts = length l.
Proof.
  induction l as [|t l IH]; simpl; intros ts.
  - intros [= <-]; reflexivity.
  - destruct (PyFloat.float t); [|discriminate].
    destruct (map_float l) as [e|xs]; [discriminate|].
    intros [= <-]. simpl. rewrite (IH xs eq_refl). reflexivity.
Qed.

Lemma float_of_int_nonneg n :
  (0 <= n)%Z -> SFltb (float_of_int n) (S754_zero false) = false.
Proof.
  intros Hn. unfold float_of_int, binary_normalize.
  destruct n as [|p|p]; [reflexivity| |lia].
  unfold binary_round. destruct (shl_align _ _ _) as [mz ez].
  unfold binary_round_aux.
  destruct (shr_fexp _ _ _ _ _) as [mrs e1].
  destruct (shr_fexp _ _ _ _ _) as [mrs' e2].
  destruct (shr_m mrs'); [reflexivity| |reflexivity].
  destruct (Z.leb _ _); reflexivity.
Qed.

Lemma np_array_of_ints_nonneg l :
  Forall (fun n => (0 <= n)%Z) l -> sizes_nonneg (np_array_of_ints l).
Proof.
  intros Hl. destruct (np_array_of_ints_cases l) as [[H|[H|[H|H]]]|H];
    rewrite H; simpl; try exact Hl.
  apply List.Forall_forall. intros x Hx.
  apply in_map_iff in Hx as (n & <- & Hn).
  rewrite List.Forall_forall in Hl. apply float_of_int_nonneg, Hl, Hn.
Qed.

Lemma header_data_initial : header_data_ok initial.
Proof. repeat split; try constructor. discriminate. Qed.

Lemma other_field_not_numeric (row : list string) (k : string) :
  In k (List.filter nonempty
          (List.filter (fun x => negb (Py.isdigit x)) row)) ->
  nonempty k = true /\ Py.isdigit k = false.
Proof.
  intros [Hk Hne]%filter_In. apply filter_In in Hk as [_ Hnd].
  split; [exact Hne|]. destruct (Py.isdigit k); [discriminate|reflexivity].
Qed.

Lemma clear_header_data v : header_data_ok v -> header_data_ok (clear v).
Proof.
  unfold header_data_ok.
  destruct v as [ov [] gv dv fv sv ev nv]; simpl; try (intros H; exact H).
  intros (_ & _ & Hg). repeat split; try constructor. exact Hg.
Qed.

Lemma loop_body_header_data v line v' :
  header_data_ok v -> loop_body v line = inr v' -> header_data_ok v'.
Proof.
  intros Hv%clear_header_data. unfold loop_body.
  destruct Hv as (Hof & Hds & Hg).
  destruct (fields line) as [|name rest] eqn:Hf.
  { intros [= <-]. repeat split; assumption. }
  assert (name <> "") as Hname.
  { apply nonempty_ne, (fields_nonempty line). rewrite Hf. left; reflexivity. }
  destruct (Vars.state (clear v)) eqn:Hst.
  - intros [= <-]. repeat split; try assumption.
    cbn. intros g [= <-]. exact Hname.
  - unfold parse_celero_recordTable_header. intros [= <-].
    unfold header_data_ok.
    cbn [Vars.other_fields Vars.data_sizes Vars.group_name].
    split; [|split; [|exact Hg]].
    + apply List.Forall_forall. intros k Hk.
      exact (other_field_not_numeric (name :: rest) _ Hk).
    + apply np_array_of_ints_nonneg.
      apply List.Forall_forall. intros n Hn.
      apply in_map_iff in Hn as (s & <- & _). apply int_nonneg.
  - unfold result_row_branch.
    destruct (map_float _); [discriminate|].
    destruct (Vars.group_name (clear v)) eqn:Hgn; [|discriminate].
    intros [= <-]. unfold header_data_ok. simpl. rewrite Hgn. auto.
  - intros [= <-]. repeat split; assumption.
Qed.

Lemma loop_body_records_ok v line v' :
  invariant v -> header_data_ok v ->
  Forall record_ok (Vars.output v) ->
  loop_body v line = inr v' ->
  Forall record_ok (Vars.output v').
Proof.
  unfold loop_body.
  destruct (fields line) as [|name rest] eqn:Hf.
  { intros _ _ Ho [= <-]. simpl. rewrite clear_output. exact Ho. }
  destruct (Vars.state (clear v)) eqn:Hst.
  - intros _ _ Ho [= <-]. simpl. rewrite clear_output. exact Ho.
  - intros _ _ Ho. destruct (parse_celero_recordTable_header _) as [[[? ?] ?] ?].
    intros [= <-]. simpl. rewrite clear_output. exact Ho.
  - assert (clear v = v) as Hc.
    { revert Hst. unfold clear.
      destruct (Vars.state v); (discriminate || reflexivity). }
    rewrite Hc in *. unfold invariant, header_data_ok. rewrite Hst.
    intros (_ & Hss & Hse) (Hof & Hds & Hg) Ho.
    unfold result_row_branch.
    destruct (map_float _) as [e|ts] eqn:Hm; [discriminate|].
    destruct (Vars.group_name v) as [g|] eqn:Hgn; [|discriminate].
    intros [= <-]. simpl. apply Forall_app. split; [exact Ho|].
    constructor; [|constructor].
    pose proof (map_float_length _ _ Hm) as Hlen.
    unfold record_ok, np_array_of_floats; simpl.
    split; [|split; [|split; [|split]]].
    + rewrite Hlen, slice_length, Hse. lia.
    + apply Hg. reflexivity.
    + apply nonempty_ne, (fields_nonempty line). rewrite Hf. left; reflexivity.
    + exact Hds.
    + intros k x Hk. apply dict_lookup_pairs, in_zip in Hk as [Hk Hx].
      rewrite List.Forall_forall in Hof. destruct (Hof k Hk) as [Hne Hnd].
      split; [apply nonempty_ne, Hne|]. split; [exact Hnd|].
      apply nonempty_ne, (fields_nonempty line). rewrite Hf.
      exact (slice_subset _ _ _ _ Hx).
  - intros _ _ Ho [= <-]. rewrite clear_output. exact Ho.
Qed.

Lemma run_records_ok infile : forall v v',
  invariant v -> header_data_ok v ->
  Forall record_ok (Vars.output v) ->
  run v infile = inr v' ->
  Forall record_ok (Vars.output v').
Proof.
  induction infile as [|line rest IH]; simpl; intros v v' Hi Hh Ho Hr.
  - injection Hr as <-; exact Ho.
  - destruct (loop_body v line) as [e|v1] eqn:Hstep; [discriminate|].
    apply (IH v1); [| | |exact Hr].
    + eapply loop_body_invariant; eassumption.
    + eapply loop_body_header_data; eassumption.
    + eapply loop_body_records_ok; eassumption.
Qed.

(** X2: Whatever the input, every record the reader returns has at most as
    many times as data sizes, a non-empty group and benchmark name, data
    sizes that are not negative, and extra data whose keys are non-empty and
    not numeric and whose values are non-empty. *)
Theorem read_records_ok (infile : list string) (records : list Result.t) :
  read_celero_recordTable infile = inr records ->
  Forall record_ok records.
Proof.
  rewrite read_unfold. destruct (run initial infile) as [e|v] eqn:Hr;
    [discriminate|].
  intros [= <-].
  apply (run_records_ok infile initial v); try assumption.
  - apply invariant_initial.
  - apply header_data_initial.
  - constructor.
Qed.

Lemma read_records_ok_witness :
  Forall record_ok
    [Result.mk "grp" "cpu" (Int64Array [128%Z; 256%Z]) [float_one]
       {[ "AF_PLATFORM" := "CUDA" ]}].
Proof.
  apply (read_records_ok
           [text_line "grp"; text_line ",AF_PLATFORM,128,256";
            text_line "cpu,CUDA,1.0"]).
  vm_compute. reflexivity.
Defined.

(** *** How many records a file can hold *)

Lemma loop_body_count n v line v' :
  count_bound n v -> loop_body v line = inr v' -> count_bound (S n) v'.
Proof.
  unfold loop_body, count_bound.
  destruct (fields line) as [|name rest];
    destruct v as [ov [] gv dv fv sv ev nv]; simpl; intros (H1 & H2 & H3) Hb;
    repeat match goal with H : ?a = ?a -> _ |- _ => specialize (H eq_refl) end;
    try (injection Hb as <-; simpl;
         (split; [destruct H1 as [->|H1]; [left; reflexivity|right; lia]|]);
         split; intros; try discriminate;
         destruct H1 as [->|H1]; simpl; lia).
  revert Hb. unfold result_row_branch; simpl.
  destruct (map_float _); [discriminate|].
  destruct nv; [|discriminate].
  intros [= <-]; simpl. rewrite length_app; simpl.
  split; [right; lia|]. split; [discriminate|intros _; lia].
Qed.

Lemma run_count infile : forall n v v',
  count_bound n v -> run v infile = inr v' ->
  count_bound (n + length infile) v'.
Proof.
  induction infile as [|line rest IH]; simpl; intros n v v' Hc Hr.
  - injection Hr as <-. rewrite Nat.add_0_r. exact Hc.
  - destruct (loop_body v line) as [e|v1] eqn:Hstep; [discriminate|].
    rewrite Nat.add_succ_r. apply (IH (S n) v1); [|exact Hr].
    eapply loop_body_count; eassumption.
Qed.

(** X3: A file of n lines holds at most n - 2 records: every section spends a
    group row and a header row before its first record.  In particular a
    file of fewer than three lines that parses yields no record. *)
Theorem read_record_count (infile : list string) (records : list Result.t) :
  read_celero_recordTable infile = inr records ->
  length records <= length infile - 2.
Proof.
  rewrite read_unfold. destruct (run initial infile) as [e|v] eqn:Hr;
    [discriminate|].
  intros [= <-].
  destruct (run_count infile 0 initial v) as ([H|H] & _); try assumption.
  - split; [left; reflexivity|split; discriminate].
  - rewrite H; simpl; lia.
  - simpl in H. lia.
Qed.

Lemma read_record_count_witness :
  length [Result.mk "grp" "cpu" (Int64Array [128%Z]) [float_one] ∅] <= 3 - 2.
Proof.
  apply (read_record_count
           [text_line "grp"; text_line ",128"; text_line "cpu,1.0"]).
  vm_compute. reflexivity.
Defined.

(** *** One section, row by row *)

Lemma result_row_success v line v' :
  Vars.state v = result_row ->
  ~ blank line ->
  loop_body v line = inr v' ->
  exists r,
    v' = append_output v r
    /\ Vars.group_name v = Some (Result.group r)
    /\ Result.data_sizes r = Vars.data_sizes v
    /\ Result.benchmark_name r = hd "" (fields line).
Proof.
  intros Hst Hnb. unfold loop_body, blank in *.
  assert (clear v = v) as -> by (unfold clear; rewrite Hst; reflexivity).
  destruct (fields line) as [|name more]; [contradiction|].
  rewrite Hst. unfold result_row_branch.
  destruct (map_float _); [discriminate|].
  destruct (Vars.group_name v); [|discriminate].
  intros [= <-]. eexists. repeat split.
Qed.

Lemma section_rows_run rows : forall v v' g,
  Vars.state v = result_row ->
  Vars.group_name v = Some g ->
  Forall (fun row => ~ blank row) rows ->
  run v rows = inr v' ->
  exists rs,
    Vars.output v' = Vars.output v ++ rs
    /\ Forall2 (fun row r =>
                  Result.group r = g
                  /\ Result.data_sizes r = Vars.data_sizes v
                  /\ Result.benchmark_name r = hd "" (fields row)) rows rs.
Proof.
  induction rows as [|row rows IH]; simpl; intros v v' g Hst Hg Hall Hr.
  - injection Hr as <-. exists []. rewrite app_nil_r. split; constructor.
  - inversion Hall as [|? ? Hrow Hrows]; subst.
    destruct (loop_body v row) as [e|v1] eqn:Hstep; [discriminate|].
    destruct (result_row_success v row v1 Hst Hrow Hstep)
      as (r & -> & Hgr & Hds & Hbn).
    destruct (IH (append_output v r) v' g) as (rs & Hout & Hrs);
      try assumption; try reflexivity.
    exists (r :: rs). split.
    + rewrite Hout. simpl. rewrite <- app_assoc. reflexivity.
    + constructor; [|exact Hrs].
      split; [congruence|]. split; assumption.
Qed.

(** X4: In a section made of a group row, a header row and data rows, none of
    them blank, a parse that succeeds returns one record per data row, in
    order; every record carries the first field of the group row as its
    group, the array numpy builds from the sizes of the header row as its
    data sizes, and the first non-empty field of its row as its benchmark
    name. *)
Theorem section_records (g hdr : string) (rows : list string)
    (records : list Result.t) :
  ~ blank g ->
  ~ blank hdr ->
  Forall (fun row => ~ blank row) rows ->
  read_celero_recordTable (g :: hdr :: rows) = inr records ->
  Forall2 (fun row r =>
             Result.group r = hd "" (fields g)
             /\ Result.data_sizes r
                = np_array_of_ints
                    (List.map Py.int (List.filter Py.isdigit (fields hdr)))
             /\ Result.benchmark_name r = hd "" (fields row))
    rows records.
Proof.
  intros Hg Hh Hrows. rewrite read_unfold. simpl run.
  destruct (fields g) as [|name more] eqn:Hf; [contradiction|].
  rewrite (group_row_step initial g name more eq_refl Hf).
  rewrite header_row_step by (reflexivity || assumption).
  match goal with |- context [run ?w rows] => set (v := w) end.
  destruct (run v rows) as [e|v'] eqn:Hr; [discriminate|].
  intros [= <-].
  destruct (section_rows_run rows v v' name eq_refl eq_refl Hrows Hr)
    as (rs & Hout & Hall).
  simpl in Hout. rewrite Hout. exact Hall.
Qed.

Lemma section_records_witness :
  Forall2 (fun row r =>
             Result.group r = "grp"
             /\ Result.data_sizes r = Int64Array [128%Z]
             /\ Result.benchmark_name r = hd "" (fields row))
    [text_line "cpu,1.0"; text_line "gpu"]
    [Result.mk "grp" "cpu" (Int64Array [128%Z]) [float_one] ∅;
     Result.mk "grp" "gpu" (Int64Array [128%Z]) [] ∅].
Proof.
  apply (section_records (text_line "grp") (text_line ",128")
           [text_line "cpu,1.0"; text_line "gpu"]).
  - discriminate.
  - discriminate.
  - repeat constructor; discriminate.
  - vm_compute. reflexivity.
Defined.

(** *** Line terminators, blank lines and header widths *)

Lemma rstrip_snoc p s c :
  p c = true -> Py.rstrip p (s ++ String c "")%string = Py.rstrip p s.
Proof.
  intros Hc. induction s as [|a s IH]; simpl.
  - rewrite Hc. reflexivity.
  - rewrite IH. reflexivity.
Qed.

Lemma strip_snoc p s c :
  p c = true -> Py.strip p (s ++ String c "")%string = Py.strip p s.
Proof.
  intros Hc. unfold Py.strip. induction s as [|a s IH]; simpl.
  - rewrite Hc. reflexivity.
  - destruct (p a); [exact IH|].
    apply (rstrip_snoc p (String a s) c Hc).
Qed.

Lemma fields_text_line s : fields (text_line s) = fields s.
Proof.
  unfold fields, text_line. rewrite strip_snoc by reflexivity. reflexivity.
Qed.

Lemma run_same_fields xs : forall ys v,
  Forall2 (fun x y => fields x = fields y) xs ys -> run v xs = run v ys.
Proof.
  induction xs as [|x xs IH]; intros ys v H; inversion H as [|? y ? ys' Hxy Hrest];
    subst; simpl; [reflexivity|].
  unfold loop_body. rewrite Hxy.
  fold (loop_body v y). destruct (loop_body v y); [reflexivity|].
  apply IH, Hrest.
Qed.

(** X5: The reader returns the same whether or not lines carry their newline:
    a final line without terminator is read like the others. *)
Theorem newline_terminators_irrelevant (infile : list string) :
  read_celero_recordTable (List.map text_line infile)
  = read_celero_recordTable infile.
Proof.
  rewrite !read_unfold. f_equal. apply run_same_fields.
  induction infile as [|l ls IH]; simpl; constructor;
    [apply fields_text_line|exact IH].
Qed.

Lemma split_all_empty sep s :
  List.filter nonempty (Py.split sep s) = []
  <-> Forall (fun c => c = sep) (list_ascii_of_string s).
Proof.
  induction s as [|c s IH]; simpl; [split; [constructor|reflexivity]|].
  destruct (Ascii.eqb_spec c sep) as [->|Hne]; simpl.
  - rewrite IH. split; [intros H; constructor; [reflexivity|exact H]|].
    intros H; inversion H; assumption.
  - split.
    + destruct (Py.split sep s); simpl; discriminate.
    + intros H; inversion H; contradiction.
Qed.

(** X6: A line ends a section exactly when, without its newlines, it consists
    of commas only (possibly none); a line of spaces is not blank. *)
Theorem blank_iff_only_commas (line : string) :
  blank line
  <-> Forall (fun c => c = ","%char)
        (list_ascii_of_string (Py.strip Py.is_newline line)).
Proof. unfold blank, fields. apply split_all_empty. Qed.

Example line_of_spaces_is_a_group_row :
  run initial ["   "] = inr (Vars.mk [] header "" (PyList []) [] 0 0 (Some "   ")).
Proof. reflexivity. Qed.

Lemma isdigit_nonempty t : Py.isdigit t = true -> nonempty t = true.
Proof. destruct t; [discriminate|reflexivity]. Qed.

Lemma header_token_count row :
  length (List.filter Py.isdigit row)
  + length (List.filter nonempty
              (List.filter (fun x => negb (Py.isdigit x)) row))
  = length (List.filter nonempty row).
Proof.
  induction row as [|t row IH]; simpl; [reflexivity|].
  destruct (Py.isdigit t) eqn:Hd; simpl.
  - rewrite (isdigit_nonempty t Hd). simpl. lia.
  - destruct (nonempty t); simpl; lia.
Qed.

(** X7: The header parser ignores empty tokens, and every non-empty token is
    counted once, as an extra field or as a size: split_end is one more
    than the number of non-empty tokens, and 1 <= split_start <= split_end.
    A data row lines up with its header when it has split_end non-empty
    fields. *)
Theorem header_offsets (header_row : list string) :
  let '(data_sizes, other_fields, split_start, split_end) :=
    parse_celero_recordTable_header header_row in
  split_end = 1 + length (List.filter nonempty header_row)
  /\ 1 <= split_start <= split_end
  /\ split_end - split_start = len data_sizes
  /\ parse_celero_recordTable_header (List.filter nonempty header_row)
     = parse_celero_recordTable_header header_row.
Proof.
  unfold parse_celero_recordTable_header.
  pose proof (header_token_count header_row) as Hc.
  rewrite len_np_array_of_ints, length_map.
  split; [lia|]. split; [lia|]. split; [lia|].
  assert (forall row,
            List.filter Py.isdigit (List.filter nonempty row)
            = List.filter Py.isdigit row) as Hd.
  { induction row as [|t row IH]; simpl; [reflexivity|].
    destruct (nonempty t) eqn:Hn; simpl; [rewrite IH; reflexivity|].
    destruct t; [simpl; exact IH|discriminate]. }
  assert (forall row,
            List.filter nonempty
              (List.filter (fun x => negb (Py.isdigit x))
                 (List.filter nonempty row))
            = List.filter nonempty
                (List.filter (fun x => negb (Py.isdigit x)) row)) as Ho.
  { induction row as [|t row IH]; simpl; [reflexivity|].
    destruct (nonempty t) eqn:Hn; simpl.
    - destruct (Py.isdigit t); simpl; [exact IH|].
      rewrite Hn, IH. reflexivity.
    - destruct (Py.isdigit t); simpl; [exact IH|].
      rewrite Hn. exact IH. }
  rewrite Hd, Ho. reflexivity.
Qed.

(** ** Listing attribute values *)

Lemma sorted_set_spec (entries : list string) :
  let unique : gset string := list_to_set entries in
  StronglySorted string_lt (merge_sort String.le (elements unique))
  /\ forall x, x ∈ merge_sort String.le (elements unique) <-> x ∈ entries.
Proof.
  simpl. split.
  - apply sorted_nodup_strict.
    + apply (StronglySorted_merge_sort String.le).
    + rewrite merge_sort_Permutation. apply NoDup_elements.
  - intros x. rewrite merge_sort_Permutation, elem_of_elements.
    apply elem_of_list_to_set.
Qed.

Lemma attribute_entries_spec results attribute :
  match attribute_entries results attribute with
  | inl e =>
      e = KeyError attribute
      /\ exists r, In r results /\ Result.extra_data r !! attribute = None
  | inr entries =>
      (forall r, In r results ->
                 is_Some (Result.extra_data r !! attribute))
      /\ forall x, x ∈ entries
                   <-> exists r, In r results
                                 /\ Result.extra_data r !! attribute = Some x
  end.
Proof.
  induction results as [|r rs IH]; simpl.
  - split; [intros r []|]. intros x. split.
    + intros H. inversion H.
    + intros (r & [] & _).
  - destruct (Result.extra_data r !! attribute) as [entry|] eqn:Hr.
    + destruct (attribute_entries rs attribute) as [e|entries].
      * destruct IH as (-> & r' & Hin & Hnone).
        split; [reflexivity|]. exists r'. auto.
      * destruct IH as (Hall & Hmem). split.
        -- intros r' [<-|Hin]; [rewrite Hr; eauto|apply Hall, Hin].
        -- intros x. rewrite elem_of_cons, Hmem. split.
           ++ intros [->|(r' & Hin & Hx)]; [exists r; auto|exists r'; auto].
           ++ intros (r' & [<-|Hin] & Hx);
                [left; congruence|right; exists r'; auto].
    + split; [reflexivity|]. exists r. auto.
Qed.

(** X8: When every record has the attribute, list_recordTable_attribute returns
    its distinct values, strictly sorted: a string is listed exactly when
    it is the value of the attribute in some record. *)
Theorem list_attribute_sorted (results : list Result.t) (attribute : string) :
  (forall r, In r results -> is_Some (Result.extra_data r !! attribute)) ->
  exists entries,
    list_recordTable_attribute results attribute = inr entries
    /\ StronglySorted string_lt entries
    /\ forall x, x ∈ entries
                 <-> exists r, In r results
                               /\ Result.extra_data r !! attribute = Some x.
Proof.
  intros Hall. unfold list_recordTable_attribute.
  pose proof (attribute_entries_spec results attribute) as Hspec.
  destruct (attribute_entries results attribute) as [e|entries].
  - destruct Hspec as (_ & r & Hin & Hnone).
    destruct (Hall r Hin) as [x Hx]. congruence.
  - destruct Hspec as (_ & Hmem).
    destruct (sorted_set_spec entries) as [Hs Hm]. simpl in Hs, Hm.
    eexists. split; [reflexivity|]. split; [exact Hs|].
    intros x. rewrite Hm. apply Hmem.
Qed.

Lemma list_attribute_sorted_witness :
  exists entries,
    list_recordTable_attribute
      [Result.mk "g" "a" (Float64Array []) [] {[ "AF_PLATFORM" := "OpenCL" ]};
       Result.mk "g" "b" (Float64Array []) [] {[ "AF_PLATFORM" := "CUDA" ]};
       Result.mk "h" "a" (Float64Array []) [] {[ "AF_PLATFORM" := "OpenCL" ]}]
      "AF_PLATFORM" = inr entries
    /\ StronglySorted string_lt entries
    /\ forall x, x ∈ entries
                 <-> exists r,
                       In r [Result.mk "g" "a" (Float64Array []) [] {[ "AF_PLATFORM" := "OpenCL" ]};
                             Result.mk "g" "b" (Float64Array []) [] {[ "AF_PLATFORM" := "CUDA" ]};
                             Result.mk "h" "a" (Float64Array []) [] {[ "AF_PLATFORM" := "OpenCL" ]}]
                       /\ Result.extra_data r !! "AF_PLATFORM" = Some x.
Proof.
  apply (list_attribute_sorted
           [Result.mk "g" "a" (Float64Array []) [] {[ "AF_PLATFORM" := "OpenCL" ]};
            Result.mk "g" "b" (Float64Array []) [] {[ "AF_PLATFORM" := "CUDA" ]};
            Result.mk "h" "a" (Float64Array []) [] {[ "AF_PLATFORM" := "OpenCL" ]}]
           "AF_PLATFORM").
  intros r [<-|[<-|[<-|[]]]]; vm_compute; eauto.
Defined.

(** X9: list_recordTable_attribute raises exactly when some record lacks the
    attribute, and what it raises is the KeyError of that attribute; no
    partial list is returned. *)
Theorem list_attribute_key_error (results : list Result.t)
    (attribute : string) :
  (list_recordTable_attribute results attribute = inl (KeyError attribute)
   <-> exists r, In r results /\ Result.extra_data r !! attribute = None)
  /\ forall e, list_recordTable_attribute results attribute = inl e ->
               e = KeyError attribute.
Proof.
  unfold list_recordTable_attribute.
  pose proof (attribute_entries_spec results attribute) as Hspec.
  destruct (attribute_entries results attribute) as [e|entries].
  - destruct Hspec as (-> & Hex). split.
    + split; [intros _; exact Hex|reflexivity].
    + intros e [= <-]. reflexivity.
  - destruct Hspec as (Hall & _). split.
    + split; [discriminate|].
      intros (r & Hin & Hnone). destruct (Hall r Hin) as [x Hx]. congruence.
    + discriminate.
Qed.

(** ** The group list and the order of the records *)

Lemma list_groups_same_set (results results' : list Result.t) :
  (forall g, g ∈ List.map Result.group results
             <-> g ∈ List.map Result.group results') ->
  list_recordTable_groups results = list_recordTable_groups results'.
Proof.
  intros Hset. unfold list_recordTable_groups.
  assert ((list_to_set (List.map Result.group results) : gset string)
          = list_to_set (List.map Result.group results')) as ->;
    [|reflexivity].
  apply leibniz_equiv, set_equiv. intros g.
  rewrite !elem_of_list_to_set. apply Hset.
Qed.

Lemma list_groups_permutation (results results' : list Result.t) :
  results ≡ₚ results' ->
  list_recordTable_groups results = list_recordTable_groups results'.
Proof.
  intros Hp. apply list_groups_same_set. intros g.
  change (List.map Result.group results) with (Result.group <$> results).
  change (List.map Result.group results') with (Result.group <$> results').
  rewrite Hp. reflexivity.
Qed.

(** X10: list_recordTable_groups depends on the records only through the set of
    their groups: reordering the records, or repeating them, does not
    change its result. *)
Theorem list_groups_order_insensitive (results results' : list Result.t) :
  results ≡ₚ results' ->
  list_recordTable_groups results = list_recordTable_groups results'
  /\ list_recordTable_groups (results ++ results')
     = list_recordTable_groups results.
Proof.
  intros Hp. split; [apply list_groups_permutation, Hp|].
  apply list_groups_same_set. intros g.
  rewrite List.map_app, elem_of_app.
  change (List.map Result.group results) with (Result.group <$> results).
  change (List.map Result.group results') with (Result.group <$> results').
  rewrite <- Hp. tauto.
Qed.

Lemma list_groups_order_insensitive_witness :
  list_recordTable_groups
    [Result.mk "fft" "cpu" (Float64Array []) [] ∅; Result.mk "blur" "cpu" (Float64Array []) [] ∅]
  = list_recordTable_groups
      [Result.mk "blur" "cpu" (Float64Array []) [] ∅; Result.mk "fft" "cpu" (Float64Array []) [] ∅].
Proof.
  apply (list_groups_order_insensitive
           [Result.mk "fft" "cpu" (Float64Array []) [] ∅; Result.mk "blur" "cpu" (Float64Array []) [] ∅]
           [Result.mk "blur" "cpu" (Float64Array []) [] ∅; Result.mk "fft" "cpu" (Float64Array []) [] ∅]).
  apply perm_swap.
Defined.

Lemma list_groups_nil_iff (results : list Result.t) :
  list_recordTable_groups results = [] <-> results = [].
Proof.
  split; [|intros ->; reflexivity].
  intros H. destruct results as [|r rs]; [reflexivity|]. exfalso.
  assert (Result.group r ∈ list_recordTable_groups (r :: rs)) as Hin.
  { unfold list_recordTable_groups.
    rewrite merge_sort_Permutation, elem_of_elements, elem_of_list_to_set.
    simpl. left. }
  rewrite H in Hin. inversion Hin.
Qed.

(** ** From the reader to the attribute list *)

Lemma dict_lookup_key pairs k :
  In k (List.map fst pairs) -> is_Some (Py.dict pairs !! k).
Proof.
  unfold Py.dict.
  assert (forall m : gmap string string,
            In k (List.map fst pairs) \/ is_Some (m !! k) ->
            is_Some (foldl (fun m kv => <[kv.1 := kv.2]> m) m pairs !! k))
    as Hgen.
  { induction pairs as [|[k' x'] ps IH]; simpl; intros m H.
    - destruct H as [[]|H]; exact H.
    - apply IH. destruct H as [[->|H]|H].
      + right. rewrite lookup_insert_eq. eauto.
      + left; exact H.
      + right. destruct (decide (k' = k)) as [->|Hne].
        * rewrite lookup_insert_eq. eauto.
        * rewrite lookup_insert_ne by exact Hne. exact H. }
  intros H. apply Hgen. left; exact H.
Qed.

Lemma zip_keys (ks vs : list string) :
  length ks <= length vs -> List.map fst (zip ks vs) = ks.
Proof.
  revert vs; induction ks as [|k ks IH]; intros [|x vs]; simpl; intros H;
    try reflexivity; [lia|].
  rewrite IH by lia. reflexivity.
Qed.

Lemma result_row_extra_data v line v' :
  Vars.state v = result_row ->
  ~ blank line ->
  loop_body v line = inr v' ->
  exists r,
    v' = append_output v r
    /\ Result.extra_data r
       = Py.dict (zip (Vars.other_fields v)
                    (Py.slice 1 (Vars.split_start v) (fields line))).
Proof.
  intros Hst Hnb. unfold loop_body, blank in *.
  assert (clear v = v) as -> by (unfold clear; rewrite Hst; reflexivity).
  destruct (fields line) as [|name more]; [contradiction|].
  rewrite Hst. unfold result_row_branch.
  destruct (map_float _); [discriminate|].
  destruct (Vars.group_name v); [|discriminate].
  intros [= <-]. eexists. split; reflexivity.
Qed.

Lemma wide_rows_attribute attribute rows : forall v v',
  Vars.state v = result_row ->
  Vars.split_start v = 1 + length (Vars.other_fields v) ->
  In attribute (Vars.other_fields v) ->
  Forall (fun row => 1 + length (Vars.other_fields v) <= length (fields row))
    rows ->
  run v rows = inr v' ->
  exists rs,
    Vars.output v' = Vars.output v ++ rs
    /\ Forall (fun r => is_Some (Result.extra_data r !! attribute)) rs.
Proof.
  induction rows as [|row rows IH]; simpl; intros v v' Hst Hss Hin Hall Hr.
  - injection Hr as <-. exists []. rewrite app_nil_r. split; constructor.
  - inversion Hall as [|? ? Hrow Hrows]; subst.
    destruct (loop_body v row) as [e|v1] eqn:Hstep; [discriminate|].
    assert (~ blank row) as Hnb.
    { unfold blank. intros Hb. rewrite Hb in Hrow. simpl in Hrow. lia. }
    destruct (result_row_extra_data v row v1 Hst Hnb Hstep) as (r & -> & Hr').
    destruct (IH (append_output v r) v') as (rs & Hout & Hrs);
      try assumption.
    exists (r :: rs). split.
    + rewrite Hout. simpl. rewrite <- app_assoc. reflexivity.
    + constructor; [|exact Hrs].
      rewrite Hr'. apply dict_lookup_key. rewrite zip_keys; [exact Hin|].
      rewrite slice_length, Hss. lia.
Qed.

(** X11: In a section made of a non-blank group row, a non-blank header row
    that names K extra fields, and data rows that each have at least 1 + K
    non-empty fields, every extra field named in the header can be listed:
    when the reader succeeds, list_recordTable_attribute applied to its
    records does not raise KeyError. *)
Theorem section_attribute_listed (g hdr : string) (rows : list string)
    (records : list Result.t) (attribute : string) :
  ~ blank g ->
  ~ blank hdr ->
  Forall (fun row => 1 + header_extras hdr <= length (fields row)) rows ->
  In attribute
    (List.filter nonempty
       (List.filter (fun x => negb (Py.isdigit x)) (fields hdr))) ->
  read_celero_recordTable (g :: hdr :: rows) = inr records ->
  exists entries, list_recordTable_attribute records attribute = inr entries.
Proof.
  intros Hg Hh Hrows Hin. rewrite read_unfold. simpl run.
  destruct (fields g) as [|name more] eqn:Hf; [contradiction|].
  rewrite (group_row_step initial g name more eq_refl Hf).
  rewrite header_row_step by (reflexivity || assumption).
  match goal with |- context [run ?w rows] => set (v := w) end.
  destruct (run v rows) as [e|v'] eqn:Hr; [discriminate|].
  intros [= <-].
  destruct (wide_rows_attribute attribute rows v v') as (rs & Hout & Hall);
    try assumption; try reflexivity.
  simpl in Hout. rewrite Hout.
  unfold list_recordTable_attribute.
  pose proof (attribute_entries_spec rs attribute) as Hspec.
  destruct (attribute_entries rs attribute) as [e|entries].
  - destruct Hspec as (_ & r & Hr' & Hnone).
    rewrite List.Forall_forall in Hall.
    destruct (Hall r Hr') as [x Hx]. congruence.
  - eexists. reflexivity.
Qed.

Lemma section_attribute_listed_witness :
  exists entries,
    list_recordTable_attribute
      [Result.mk "fft_f32" "cpu" (Int64Array [128%Z; 256%Z])
         [float_one; float_two] {[ "AF_PLATFORM" := "CUDA" ]};
       Result.mk "fft_f32" "gpu" (Int64Array [128%Z; 256%Z]) []
         {[ "AF_PLATFORM" := "OpenCL" ]}]
      "AF_PLATFORM" = inr entries.
Proof.
  apply (section_attribute_listed
           (text_line "fft_f32,,") (text_line ",AF_PLATFORM,128,256")
           [text_line "cpu,CUDA,1.0,2.0,9"; text_line "gpu,,OpenCL"]).
  - discriminate.
  - discriminate.
  - repeat constructor.
  - vm_compute. left. reflexivity.
  - vm_compute. reflexivity.
Defined.

(** ** Importing a directory *)

Lemma import_files_ok files : forall results,
  Forall (fun f => exists rs, read_celero_recordTable f = inr rs) files ->
  import_files files results
  = inr (results ++ concat (List.map records_of files)).
Proof.
  induction files as [|f files IH]; simpl; intros results Hall.
  - rewrite app_nil_r. reflexivity.
  - inversion Hall as [|? ? [rs Hf] Hrest]; subst.
    unfold records_of at 1. rewrite Hf.
    rewrite IH by exact Hrest. rewrite <- app_assoc. reflexivity.
Qed.

Lemma import_files_error good bad rest e : forall results,
  Forall (fun f => exists rs, read_celero_recordTable f = inr rs) good ->
  read_celero_recordTable bad = inl e ->
  import_files (good ++ bad :: rest) results = inl e.
Proof.
  induction good as [|f good IH]; simpl; intros results Hall Hbad.
  - rewrite Hbad. reflexivity.
  - inversion Hall as [|? ? [rs Hf] Hrest]; subst.
    rewrite Hf. apply IH; assumption.
Qed.

Lemma import_files_inv files : forall results out,
  import_files files results = inr out ->
  Forall (fun f => exists rs, read_celero_recordTable f = inr rs) files.
Proof.
  induction files as [|f files IH]; simpl; intros results out H;
    [constructor|].
  destruct (read_celero_recordTable f) as [e|rs] eqn:Hf; [discriminate|].
  constructor; [eauto|]. eapply IH, H.
Qed.

(** X12: When every file of the directory parses, import_directory returns the
    records of the files one after the other, in the order glob lists the
    files and, within a file, in the file's order. *)
Theorem import_directory_concatenates (glob : string -> list string)
    (readlines : string -> list string) (directory : string) :
  Forall (fun name =>
            exists rs, read_celero_recordTable (readlines name) = inr rs)
    (glob (directory ++ "/*.csv")%string) ->
  import_directory glob readlines directory
  = inr (concat (List.map (fun name => records_of (readlines name))
                   (glob (directory ++ "/*.csv")%string))).
Proof.
  intros Hall. unfold import_directory.
  rewrite import_files_ok.
  - rewrite List.map_map. reflexivity.
  - apply List.Forall_map. exact Hall.
Qed.

(** X13: A file that does not parse aborts the whole import: import_directory
    raises the exception of the first such file in glob's order, and the
    records of the files read before it are lost. *)
Theorem import_directory_first_failure (glob : string -> list string)
    (readlines : string -> list string) (directory : string)
    (good rest : list string) (bad : string) (e : py_error) :
  glob (directory ++ "/*.csv")%string = good ++ bad :: rest ->
  Forall (fun name =>
            exists rs, read_celero_recordTable (readlines name) = inr rs)
    good ->
  read_celero_recordTable (readlines bad) = inl e ->
  import_directory glob readlines directory = inl e.
Proof.
  intros Hglob Hgood Hbad. unfold import_directory.
  rewrite Hglob, List.map_app. simpl.
  apply import_files_error; [|exact Hbad].
  apply List.Forall_map. exact Hgood.
Qed.

(** X14: glob promises no order; the group list does not depend on it: two
    listings of the same files, in any order, give imports with the same
    records up to order and the same list of groups. *)
Theorem import_order_irrelevant (glob glob' : string -> list string)
    (readlines : string -> list string) (directory : string)
    (records records' : list Result.t) :
  glob (directory ++ "/*.csv")%string ≡ₚ glob' (directory ++ "/*.csv")%string ->
  import_directory glob readlines directory = inr records ->
  import_directory glob' readlines directory = inr records' ->
  records ≡ₚ records'
  /\ list_recordTable_groups records = list_recordTable_groups records'.
Proof.
  intros Hp H1 H2.
  assert (records ≡ₚ records') as Hperm.
  { unfold import_directory in *.
    pose proof (import_files_inv _ _ _ H1) as Hok1.
    pose proof (import_files_inv _ _ _ H2) as Hok2.
    rewrite import_files_ok in H1 by exact Hok1.
    rewrite import_files_ok in H2 by exact Hok2.
    injection H1 as <-. injection H2 as <-. simpl.
    rewrite !List.map_map.
    generalize (glob (directory ++ "/*.csv")%string)
               (glob' (directory ++ "/*.csv")%string) Hp.
    clear. intros l l' Hp.
    induction Hp as [|x l l' Hp IH|x y l|l l' l'' Hp1 IH1 Hp2 IH2]; simpl.
    - reflexivity.
    - rewrite IH. reflexivity.
    - rewrite !app_assoc.
      rewrite (Permutation_app_comm (records_of (readlines y))). reflexivity.
    - etransitivity; eassumption. }
  split; [exact Hperm|]. apply list_groups_permutation, Hperm.
Qed.

Lemma import_directory_concatenates_witness :
  import_directory (fun _ => ["a.csv"; "b.csv"])
    (fun name =>
       if String.eqb name "a.csv"
       then [text_line "fft"; text_line ",128"; text_line "cpu,1.0"]
       else [text_line "blur"; text_line ",256"; text_line "gpu,2.0"])
    "results"
  = inr (concat
           (List.map
              (fun name =>
                 records_of
                   (if String.eqb name "a.csv"
                    then [text_line "fft"; text_line ",128";
                          text_line "cpu,1.0"]
                    else [text_line "blur"; text_line ",256";
                          text_line "gpu,2.0"]))
              ["a.csv"; "b.csv"])).
Proof.
  apply (import_directory_concatenates (fun _ => ["a.csv"; "b.csv"])
           (fun name =>
              if String.eqb name "a.csv"
              then [text_line "fft"; text_line ",128"; text_line "cpu,1.0"]
              else [text_line "blur"; text_line ",256"; text_line "gpu,2.0"])
           "results").
  repeat constructor; eexists; vm_compute; reflexivity.
Defined.

Lemma import_directory_first_failure_witness :
  import_directory (fun _ => ["a.csv"; "b.csv"; "c.csv"])
    (fun name =>
       if String.eqb name "b.csv"
       then [text_line "blur"; text_line ",256"; text_line "gpu,fast"]
       else [text_line "fft"; text_line ",128"; text_line "cpu,1.0"])
    "results"
  = inl (ValueError "fast").
Proof.
  apply (import_directory_first_failure (fun _ => ["a.csv"; "b.csv"; "c.csv"])
           (fun name =>
              if String.eqb name "b.csv"
              then [text_line "blur"; text_line ",256"; text_line "gpu,fast"]
              else [text_line "fft"; text_line ",128"; text_line "cpu,1.0"])
           "results" ["a.csv"] ["c.csv"] "b.csv").
  - reflexivity.
  - repeat constructor; eexists; vm_compute; reflexivity.
  - vm_compute. reflexivity.
Defined.

Lemma import_order_irrelevant_witness :
  [Result.mk "fft" "cpu" (Int64Array [128%Z]) [float_one] ∅;
   Result.mk "blur" "gpu" (Int64Array [256%Z]) [float_two] ∅]
  ≡ₚ [Result.mk "blur" "gpu" (Int64Array [256%Z]) [float_two] ∅;
      Result.mk "fft" "cpu" (Int64Array [128%Z]) [float_one] ∅]
  /\ list_recordTable_groups
       [Result.mk "fft" "cpu" (Int64Array [128%Z]) [float_one] ∅;
        Result.mk "blur" "gpu" (Int64Array [256%Z]) [float_two] ∅]
     = list_recordTable_groups
         [Result.mk "blur" "gpu" (Int64Array [256%Z]) [float_two] ∅;
          Result.mk "fft" "cpu" (Int64Array [128%Z]) [float_one] ∅].
Proof.
  apply (import_order_irrelevant (fun _ => ["a.csv"; "b.csv"])
           (fun _ => ["b.csv"; "a.csv"])
           (fun name =>
              if String.eqb name "a.csv"
              then [text_line "fft"; text_line ",128"; text_line "cpu,1.0"]
              else [text_line "blur"; text_line ",256"; text_line "gpu,2.0"])
           "results").
  - apply perm_swap.
  - vm_compute. reflexivity.
  - vm_compute. reflexivity.
Defined.

(** ** What main selects and plots *)

Lemma py_in_In x l : py_in x l = true <-> In x l.
Proof.
  unfold py_in. rewrite existsb_exists. split.
  - intros (y & Hy & Heq). apply String.eqb_eq in Heq. subst. exact Hy.
  - intros H. exists x. split; [exact H|apply String.eqb_refl].
Qed.

Lemma filter_backend_kept backend results kept :
  filter_backend backend results = inr kept ->
  Forall (fun r => In r results
                   /\ exists p, Result.extra_data r !! "AF_PLATFORM" = Some p
                                /\ In p backend) kept.
Proof.
  revert kept; induction results as [|x rest IH]; simpl; intros kept.
  - intros [= <-]. constructor.
  - destruct (Result.extra_data x !! "AF_PLATFORM") as [p|] eqn:Hp;
      [|discriminate].
    destruct (filter_backend backend rest) as [e|kept']; [discriminate|].
    specialize (IH kept' eq_refl).
    assert (Forall (fun r => (x = r \/ In r rest)
                             /\ exists p, Result.extra_data r !! "AF_PLATFORM"
                                          = Some p /\ In p backend) kept')
      as IH'.
    { eapply Forall_impl; [exact IH|]. intros r [Hr Hex]. auto. }
    destruct (py_in p backend) eqn:Hin; intros [= <-]; [|exact IH'].
    constructor; [|exact IH'].
    split; [left; reflexivity|]. exists p. split; [exact Hp|].
    apply py_in_In, Hin.
Qed.

Lemma plot_group_events plot temp sb kind temp' sb' :
  In (Plot kind temp' sb') (fst (plot_group plot temp sb)) ->
  temp' = temp /\ sb' = sb.
Proof.
  unfold plot_group.
  destruct (plot time_vs_size temp sb);
    [|destruct (plot throughput_vs_size temp sb)]; simpl;
    intros H; repeat destruct H as [H|H]; try contradiction;
    injection H as _ <- <-; auto.
Qed.

Lemma make_plots_events plot backend results groups kind temp sb :
  In (Plot kind temp sb) (fst (make_plots plot backend results groups)) ->
  exists group b,
    In group groups /\ backend = Some b /\ sb = (1 <? length b)
    /\ temp = List.filter
                (fun x => negb (String.eqb (Result.benchmark_name x)
                              "Baseline"))
                (List.filter (fun x => String.eqb (Result.group x) group)
                   results).
Proof.
  induction groups as [|group rest IH]; simpl; [contradiction|].
  destruct backend as [b|]; [|contradiction].
  match goal with |- context [plot_group plot ?t ?s] =>
    pose proof (plot_group_events plot t s kind temp sb) as Hg;
    destruct (plot_group plot t s) as [events e] end.
  simpl in Hg.
  assert (In (Plot kind temp sb) events ->
          exists group0 b0,
            (group = group0 \/ In group0 rest) /\ Some b = Some b0
            /\ sb = (1 <? length b0)
            /\ temp = List.filter
                        (fun x => negb (String.eqb (Result.benchmark_name x)
                                      "Baseline"))
                        (List.filter
                           (fun x => String.eqb (Result.group x) group0)
                           results)) as Hhere.
  { intros H. destruct (Hg H) as [-> ->]. exists group, b. auto. }
  destruct e; try exact Hhere.
  destruct (make_plots plot (Some b) results rest) as [more e'].
  simpl in *. intros [H|H]%in_app_or; [exact (Hhere H)|].
  destruct (IH H) as (g & b0 & Hin & Hb & Hsb & Ht).
  exists g, b0. auto.
Qed.

Lemma apply_filtering_kept args results kept :
  apply_filtering args results = inr kept ->
  Forall (fun r =>
            In r results
            /\ forall b, Args.backend args = Some b -> b <> [] ->
                 exists p, Result.extra_data r !! "AF_PLATFORM" = Some p
                           /\ In p b) kept.
Proof.
  unfold apply_filtering.
  destruct (Args.backend args) as [[|b0 b]|]; simpl.
  - intros [= <-]. apply List.Forall_forall. intros r Hr.
    apply filter_In in Hr as [Hr _]. split; [exact Hr|].
    intros b [= <-] Hne. contradiction.
  - intros H. apply filter_backend_kept in H.
    eapply Forall_impl; [exact H|]. intros r [Hr Hex].
    apply filter_In in Hr as [Hr _]. split; [exact Hr|].
    intros b' [= <-] _. exact Hex.
  - intros [= <-]. apply List.Forall_forall. intros r Hr.
    apply filter_In in Hr as [Hr _]. split; [exact Hr|].
    intros b [=].
Qed.

(** X15: Every call main makes to a plot function is for one group: all records
    it passes have that group, none is a "Baseline" row, and when backends
    were given each record's AF_PLATFORM is one of them; a plot call is only
    made when the backend option was given, and show_backend tells whether
    more than one was. *)
Theorem plotted_records (glob : string -> list string)
    (readlines : string -> list string)
    (plot : plot_kind -> list Result.t -> bool -> option py_exception)
    (args : Args.t) (kind : plot_kind) (temp : list Result.t) (sb : bool) :
  In (Plot kind temp sb) (fst (main glob readlines plot args)) ->
  exists group b,
    Args.backend args = Some b
    /\ sb = (1 <? length b)
    /\ Forall (fun r =>
                 Result.group r = group
                 /\ Result.benchmark_name r <> "Baseline"
                 /\ (b <> [] ->
                     exists p, Result.extra_data r !! "AF_PLATFORM" = Some p
                               /\ In p b)) temp.
Proof.
  unfold main.
  destruct (if truthy (Args.directory args) then _ else _) as [e|results];
    [contradiction|].
  destruct (Args.list_groups args).
  { simpl. intros (g & Hg & _)%in_map_iff. discriminate Hg. }
  destruct (Args.list_backends args).
  { destruct (list_recordTable_attribute results "AF_PLATFORM"); simpl;
      [contradiction|]. intros [H|[]]. discriminate H. }
  destruct (apply_filtering args results) as [e|kept] eqn:Hf;
    [contradiction|].
  intros H. apply make_plots_events in H as (g & b & _ & Hb & Hsb & ->).
  exists g, b. split; [exact Hb|]. split; [exact Hsb|].
  apply List.Forall_forall. intros r Hr.
  apply filter_In in Hr as [Hr Hbase]. apply filter_In in Hr as [Hr Hgrp].
  split; [apply String.eqb_eq, Hgrp|]. split.
  - intros Heq. rewrite Heq in Hbase. discriminate Hbase.
  - intros Hne. pose proof (apply_filtering_kept _ _ _ Hf) as Hk.
    rewrite List.Forall_forall in Hk. destruct (Hk r Hr) as [_ Hp].
    exact (Hp b Hb Hne).
Qed.

(** Without a directory option main raises NameError for [filename],
    whatever the other options are: the file option is never read. *)
Lemma main_needs_directory (glob : string -> list string)
    (readlines : string -> list string)
    (plot : plot_kind -> list Result.t -> bool -> option py_exception)
    (args : Args.t) :
  truthy (Args.directory args) = false ->
  main glob readlines plot args = ([], Raised (Err (NameError "filename"))).
Proof. intros H. unfold main. rewrite H. reflexivity. Qed.

Lemma group_in_list_groups (results : list Result.t) (r : Result.t) :
  In r results -> In (Result.group r) (list_recordTable_groups results).
Proof.
  intros Hr. apply list_elem_of_In. unfold list_recordTable_groups.
  rewrite merge_sort_Permutation, elem_of_elements, elem_of_list_to_set.
  apply list_elem_of_In, in_map, Hr.
Qed.

(** X17: Without a backend option main never calls a plot function.  If in
    addition no data type and no group was asked for and the directory
    holds at least one record, main raises TypeError, from len(None), before
    the first plot. *)
Theorem main_without_backend (glob : string -> list string)
    (readlines : string -> list string)
    (plot : plot_kind -> list Result.t -> bool -> option py_exception)
    (args : Args.t) :
  Args.backend args = None ->
  (forall kind temp sb,
      ~ In (Plot kind temp sb) (fst (main glob readlines plot args)))
  /\ (forall records,
        truthy (Args.directory args) = true ->
        import_directory glob readlines (default "" (Args.directory args))
          = inr records ->
        records <> [] ->
        Args.list_groups args = false ->
        Args.list_backends args = false ->
        truthy (Args.data_type args) = false ->
        truthy_list (Args.groups args) = false ->
        main glob readlines plot args
        = ([], Raised (TypeError "object of type 'NoneType' has no len()"))).
Proof.
  intros Hb. split.
  - intros kind temp sb H.
    unfold main in H.
    destruct (if truthy (Args.directory args) then _ else _) as [e|results];
      [contradiction|].
    destruct (Args.list_groups args).
    { simpl in H. apply in_map_iff in H as (g & Hg & _). discriminate Hg. }
    destruct (Args.list_backends args).
    { destruct (list_recordTable_attribute results "AF_PLATFORM");
        simpl in H; [contradiction|]. destruct H as [H|[]]. discriminate H. }
    destruct (apply_filtering args results) as [e|kept]; [contradiction|].
    apply make_plots_events in H as (g & b & _ & Hsome & _). congruence.
  - intros records Hdir Himp Hne Hlg Hlb Hdt Hgr.
    unfold main. rewrite Hdir, Himp, Hlg, Hlb.
    unfold apply_filtering, include_groups. rewrite Hdt, Hgr, Hb. simpl.
    assert (List.filter
              (fun x => py_in (Result.group x)
                          (list_recordTable_groups records)) records
            = records) as ->.
    { apply forallb_filter_id, forallb_forall. intros r Hr.
      apply py_in_In, group_in_list_groups, Hr. }
    destruct (list_recordTable_groups records) as [|g gs] eqn:Hgs.
    + apply list_groups_nil_iff in Hgs. contradiction.
    + reflexivity.
Qed.


(** ** The script at concrete inputs *)

Example last3_examples :
  last3 "fft_f32" = "f32" /\ last3 "ab" = "ab" /\ last3 "" = "".
Proof. repeat split; reflexivity. Qed.

Example main_plots_one_group :
  main (fun _ => ["a.csv"])
    (fun _ => [text_line "fft_f32"; text_line ",AF_PLATFORM,128";
               text_line "Baseline,CUDA,9.0"; text_line "cpu,CUDA,1.0";
               text_line "gpu,OpenCL,2.0"])
    (fun _ _ _ => None)
    (Args.mk (Some "results") None false None None false (Some ["CUDA"]))
  = ([Plot time_vs_size
        [Result.mk "fft_f32" "cpu" (Int64Array [128%Z]) [float_one]
           {[ "AF_PLATFORM" := "CUDA" ]}] false;
      Plot throughput_vs_size
        [Result.mk "fft_f32" "cpu" (Int64Array [128%Z]) [float_one]
           {[ "AF_PLATFORM" := "CUDA" ]}] false;
      Plot image_rate_vs_size
        [Result.mk "fft_f32" "cpu" (Int64Array [128%Z]) [float_one]
           {[ "AF_PLATFORM" := "CUDA" ]}] false],
     Returned).
Proof. vm_compute. reflexivity. Qed.

Lemma plotted_records_witness :
  exists group b,
    Some ["CUDA"] = Some b
    /\ false = (1 <? length b)
    /\ Forall (fun r =>
                 Result.group r = group
                 /\ Result.benchmark_name r <> "Baseline"
                 /\ (b <> [] ->
                     exists p, Result.extra_data r !! "AF_PLATFORM" = Some p
                               /\ In p b))
         [Result.mk "fft_f32" "cpu" (Int64Array [128%Z]) [float_one]
            {[ "AF_PLATFORM" := "CUDA" ]}].
Proof.
  apply (plotted_records (fun _ => ["a.csv"])
           (fun _ => [text_line "fft_f32"; text_line ",AF_PLATFORM,128";
                      text_line "Baseline,CUDA,9.0"; text_line "cpu,CUDA,1.0";
                      text_line "gpu,OpenCL,2.0"])
           (fun _ _ _ => None)
           (Args.mk (Some "results") None false None None false
              (Some ["CUDA"]))
           time_vs_size).
  vm_compute. left. reflexivity.
Defined.

Lemma main_needs_directory_witness :
  main (fun _ => ["a.csv"]) (fun _ => [text_line "fft_f32"])
    (fun _ _ _ => None)
    (Args.mk None (Some "a.csv") true None None false None)
  = ([], Raised (Err (NameError "filename"))).
Proof.
  apply main_needs_directory. reflexivity.
Defined.

Lemma main_without_backend_witness :
  main (fun _ => ["a.csv"])
    (fun _ => [text_line "fft_f32"; text_line ",128"; text_line "cpu,1.0"])
    (fun _ _ _ => None)
    (Args.mk (Some "results") None false None None false None)
  = ([], Raised (TypeError "object of type 'NoneType' has no len()")).
Proof.
  refine (proj2 (main_without_backend (fun _ => ["a.csv"])
                   (fun _ => [text_line "fft_f32"; text_line ",128";
                              text_line "cpu,1.0"])
                   (fun _ _ _ => None)
                   (Args.mk (Some "results") None false None None false None)
                   _)
            [Result.mk "fft_f32" "cpu" (Int64Array [128%Z]) [float_one] ∅]
            _ _ _ _ _ _ _).
  - reflexivity.
  - reflexivity.
  - vm_compute. reflexivity.
  - discriminate.
  - reflexivity.
  - reflexivity.
  - reflexivity.
  - reflexivity.
Defined.

